(** * benchmark.py: the repeated-trial benchmark engine

    A shallow embedding of [benchmark.py] (the per-branch run loop, the
    time-remaining estimators, the statistics lines and the report layout)
    and the properties of it that the specification states.

    Modelling conventions.
    - A Python [int] is a [Z]; a [str] is a [string]; [None] is [None].
    - A duration is a number of seconds.  The source holds it in a [float];
      here, as in the specification's data model, it is an exact rational
      ([Q]).  Arithmetic on durations is exact, [round(x, n)] is rounding to
      [n] decimals with ties to even, true division raises
      [ZeroDivisionError] on a zero divisor.  Binary rounding of floats is
      outside the embedding.
    - A Python [list] of durations is an object: it lives in a heap and is
      reached through a reference, so that [list.sort()] is seen by every
      holder of the reference.
    - What the program does to its surroundings (clock, files, processes) is
      a transition on an abstract world; exceptions are the [Raise] results
      of a state-and-error monad; every call of a branch callback, every
      clock reading, every line logged or printed, every rebinding of
      [branch.runs] and every query of the estimator is recorded in order in
      a trace. *)

From Stdlib Require Import ZArith QArith Qround Qabs Lia Lqa.
From Stdlib Require Import String Ascii DecimalString.
From Stdlib Require Import List Permutation Sorted.
From stdpp Require Import base option list.

Import ListNotations.
Local Open Scope Z_scope.
Local Open Scope string_scope.
Local Open Scope list_scope.

(** ** Exceptions and results *)

Inductive exn : Type :=
| StatisticsError          (* statistics.mean / median on no data *)
| ZeroDivisionError        (* float division by zero *)
| HostError (what : string). (* OSError, CalledProcessError, git errors *)

Inductive result (A : Type) : Type :=
| Ok (a : A)
| Raise (e : exn).
Arguments Ok {A} a.
Arguments Raise {A} e.

(** The rest [k] is evaluated unless [r] raised. *)
Definition and_then {A B} (r : result A) (k : A -> result B) : result B :=
  match r with
  | Ok a => k a
  | Raise e => Raise e
  end.

Notation "'let?' x := r 'in' k" := (and_then r (fun x => k))
  (at level 10, x name, r at level 100, k at level 200).

(** ** Python built-ins used by the program *)

Module Py.

(** Nearest integer, ties to the even one. *)
Definition round_half_even (x : Q) : Z :=
  let f := Qfloor x in
  match Qcompare (x - inject_Z f) (1 # 2) with
  | Lt => f
  | Gt => f + 1
  | Eq => if Z.even f then f else f + 1
  end.

Fixpoint pow10 (n : nat) : positive :=
  match n with
  | O => 1%positive
  | S n' => (10 * pow10 n')%positive
  end.

(** [round(x, ndigits)] on a float: a float again, with at most [ndigits]
    decimals. *)
Definition round (x : Q) (ndigits : nat) : Q :=
  let p := pow10 ndigits in
  Qred (round_half_even (x * inject_Z (Z.pos p)) # p).

(** [int(x)] on a float: truncation towards zero. *)
Definition int (x : Q) : Z :=
  if Qle_bool 0 x then Qfloor x else Qceiling x.

(** [x < y] on floats. *)
Definition lt (x y : Q) : bool := negb (Qle_bool y x).

(** [math.ceil]. *)
Definition ceil (x : Q) : Z := Qceiling x.

(** [a / b] on two ints (true division). *)
Definition truediv (a b : Z) : Q := inject_Z a / inject_Z b.

(** [str(n)] and [f"{n}"] for an int. *)
Definition str (n : Z) : string := NilZero.string_of_int (Z.to_int n).

(** [len] as an int, of a list and of a string. *)
Definition len {A} (l : list A) : Z := Z.of_nat (List.length l).
Definition len_str (s : string) : Z := Z.of_nat (String.length s).

(** [c * n] for a one-character string [c]; the empty string when [n <= 0]. *)
Fixpoint replicate (c : ascii) (n : nat) : string :=
  match n with
  | O => EmptyString
  | S n' => String c (replicate c n')
  end.

Definition times (c : ascii) (n : Z) : string := replicate c (Z.to_nat n).

(** [s[0:n]] for [0 <= n]. *)
Definition slice0 (s : string) (n : nat) : string := substring 0 n s.

(** [sorted(l)], which is also what [l.sort()] leaves in [l]: the stable
    ascending arrangement of [l]. *)
Fixpoint insert (x : Q) (l : list Q) : list Q :=
  match l with
  | [] => [x]
  | y :: l' => if Qle_bool x y then x :: y :: l' else y :: insert x l'
  end.

Fixpoint sorted (l : list Q) : list Q :=
  match l with
  | [] => []
  | x :: l' => insert x (sorted l')
  end.

Definition sum (l : list Q) : Q := fold_left Qplus l 0%Q.

(** [statistics.mean]. *)
Definition mean (data : list Q) : result Q :=
  match data with
  | [] => Raise StatisticsError
  | _ => Ok (sum data / inject_Z (len data))%Q
  end.

(** [statistics.median]: sorts a copy, then takes the middle element or
    the average of the two middle elements. *)
Definition median (data : list Q) : result Q :=
  let data := sorted data in
  let n := List.length data in
  if Nat.eqb n 0 then Raise StatisticsError
  else if Nat.eqb (n mod 2) 1 then Ok (nth (n / 2) data 0%Q)
  else let i := (n / 2)%nat in
       Ok ((nth (i - 1) data 0 + nth i data 0) / 2)%Q.

End Py.

(** ** The statistics lines and the report layout *)

(** A line of the report: [(label, value, fill)]; [value] is [None] on a
    header or separator line. *)
Definition ReportLine : Type := string * option string * ascii.

Definition label (kv : ReportLine) : string := fst (fst kv).
Definition value (kv : ReportLine) : option string := snd (fst kv).
Definition fill (kv : ReportLine) : ascii := snd kv.

(** [improvement(base, better)]: the percentage faster. *)
Definition improvement (base better : Q) : result Q :=
  if Qeq_bool base 0 then Raise ZeroDivisionError
  else Ok (100 * ((base - better) / base))%Q.

Definition pair_to_line (full_width : Z) (kv : ReportLine) : string :=
  match value kv with
  | None =>
      let padding_size := Py.ceil (Py.truediv (full_width - Py.len_str (label kv)) 2) in
      let padding := Py.times (fill kv) padding_size in
      padding ++ label kv ++ padding
  | Some v =>
      let padding :=
        Py.times (fill kv) (full_width - Py.len_str (label kv) - Py.len_str v) in
      label kv ++ padding ++ v
  end.

Definition len_none_is_zero (x : option string) : Z :=
  match x with
  | None => 0
  | Some s => Py.len_str s
  end.

Definition key_len_of_non_none_values (kv : ReportLine) : Z :=
  match value kv with
  | None => 0
  | Some _ => Py.len_str (label kv)
  end.

Definition header_line : ReportLine := ("  Benchmark stats  ", None, ":"%char).

Definition min_separation : Z := 6.

Definition max_key_width (kvs : list ReportLine) : Z :=
  fold_left (fun x y => Z.max x (key_len_of_non_none_values y)) kvs 0.

Definition max_value_width (kvs : list ReportLine) : Z :=
  fold_left (fun x y => Z.max x (len_none_is_zero (value y))) kvs 0.

(** The lines before truncation (source line 110); [kvs] already has the
    header in front. *)
Definition untruncated_lines (kvs : list ReportLine) : list string :=
  map (pair_to_line (min_separation + max_key_width kvs + max_value_width kvs)) kvs.

(** [line_lengths[len(line_lengths) - 2]]: index [-1] is the last element. *)
Definition second_to_last (line_lengths : list nat) : nat :=
  let n := List.length line_lengths in
  nth (if Nat.ltb n 2 then n - 1 else n - 2)%nat line_lengths 0%nat.

(** The lines that [print_results(kvs)] prints, in order. *)
Definition report_lines (kvs : list ReportLine) : list string :=
  let kvs := header_line :: kvs in
  let lines := untruncated_lines kvs in
  let line_lengths := map String.length lines in
  let full_width := second_to_last line_lengths in
  map (fun line => Py.slice0 line full_width) lines.

Definition time_string (seconds : Z) : string :=
  if (3600 <? seconds)%Z then Py.str (Py.ceil (Py.truediv seconds 3600)) ++ " hours"
  else if (60 <? seconds)%Z then Py.str (Py.ceil (Py.truediv seconds 60)) ++ " minutes"
  else Py.str seconds ++ " seconds".

(** ** The world outside, the heap and the trace *)

(** An action on the world outside the program: it may fail, and it leaves
    a world behind either way. *)
Definition action (W : Type) : Type := W -> result unit * W.

(** What the program takes from its surroundings. *)
Class Host (W : Type) : Type := {
  perf_counter : W -> Q;                          (* time.perf_counter() *)
  float_str : Q -> string;                        (* f"{x}" for a float x *)
  path_exists : string -> W -> bool;              (* os.path.exists *)
  os_mkdir : string -> action W;
  os_remove : string -> action W;
  rmtree : string -> action W;
  clone_from : string -> string -> string -> action W;  (* git.Repo.clone_from *)
  check_output : string -> action W               (* subprocess.check_output, shell=True *)
}.

(** The three callbacks of a branch. *)
Inductive callback : Type := Setup | Trial | Cleanup.

Inductive event : Type :=
| Printed (line : string)              (* print(line) *)
| Logged (msg : string)                (* log(msg), without its time stamp *)
| Invoked (c : callback)               (* a callback of the branch is called *)
| ClockRead (t : Q)                    (* perf_counter() returned t *)
| RunsSet (branch : string) (l : list Q)  (* branch.runs = l *)
| Estimated (l : list Q) (n : Z).      (* branch.time_remaining(l, n) is called *)

(** A reference to a list object. *)
Abbreviation ref := nat (only parsing).

Record state (W : Type) : Type := mkState {
  world : W;
  heap : list (list Q);
  trace : list event
}.
Arguments mkState {W}.
Arguments world {W}.
Arguments heap {W}.
Arguments trace {W}.

(** Computations: a state in, a result or an exception and a state out. *)
Definition M (W A : Type) : Type := state W -> result A * state W.

Definition ret {W A} (a : A) : M W A := fun s => (Ok a, s).

Definition bind {W A B} (m : M W A) (f : A -> M W B) : M W B :=
  fun s => match m s with
           | (Ok a, s') => f a s'
           | (Raise e, s') => (Raise e, s')
           end.

Declare Scope M_scope.
Delimit Scope M_scope with M.
Bind Scope M_scope with M.
Notation "x <- m ;; k" := (bind m (fun x => k))
  (at level 100, m at next level, k at level 200, right associativity) : M_scope.
Notation "m ;; k" := (bind m (fun _ => k))
  (at level 100, k at level 200, right associativity) : M_scope.
Local Open Scope M_scope.

Definition lift {W A} (r : result A) : M W A := fun s => (r, s).

Definition emit {W} (e : event) : M W unit :=
  fun s => (Ok tt, mkState (world s) (heap s) (trace s ++ [e])).

(** An action of the host, run on the current world. *)
Definition host {W} (a : action W) : M W unit :=
  fun s => let (r, w) := a (world s) in (r, mkState w (heap s) (trace s)).

Definition ask {W A} (f : W -> A) : M W A := fun s => (Ok (f (world s)), s).

(** A new list object. *)
Definition alloc {W} (l : list Q) : M W ref :=
  fun s => (Ok (List.length (heap s)), mkState (world s) (heap s ++ [l]) (trace s)).

(** The contents of a list object. *)
Definition load {W} (r : ref) : M W (list Q) :=
  fun s => (Ok (default [] (heap s !! r)), s).

(** [l.sort()]: the object behind [r] is sorted in place. *)
Definition list_sort {W} (r : ref) : M W unit :=
  fun s => (Ok tt,
            mkState (world s) (alter Py.sorted r (heap s)) (trace s)).

Fixpoint for_each {W A B} (xs : list A) (body : A -> B -> M W B) (b : B) : M W B :=
  match xs with
  | [] => ret b
  | x :: xs' => b' <- body x b ;; for_each xs' body b'
  end.

(** ** The program *)

Section Program.
Context {W : Type} `{Host W}.

Definition create_if_doesnt_exist (path : string) : action W :=
  fun w => if negb (path_exists path w) then os_mkdir path w else (Ok tt, w).

Definition remove_and_recreate_dir (path : string) : action W :=
  fun w =>
    if path_exists path w then
      match rmtree path w with
      | (Ok _, w') => os_mkdir path w'
      | (Raise e, w') => (Raise e, w')
      end
    else os_mkdir path w.

Definition remove_if_exists (path : string) : action W :=
  fun w => if path_exists path w then os_remove path w else (Ok tt, w).

Definition path_from (dir_list : list string) : string :=
  "./" ++ String.concat "/" dir_list.

(** [time(thunk)]: the time to evaluate the thunk, in seconds. *)
Definition time (thunk : M W unit) : M W Q :=
  start <- (t <- ask perf_counter ;; emit (ClockRead t) ;; ret t) ;;
  thunk ;;
  stop <- (t <- ask perf_counter ;; emit (ClockRead t) ;; ret t) ;;
  ret (Py.round (stop - start) 3).

Definition get_stat (name : string) (dev base : Q) : result (list ReportLine) :=
  let? p := improvement base dev in
  let percent := Py.round p 2 in
  let lines := [ ((name ++ " dev")%string, Some (float_str dev), "."%char);
                 ((name ++ " base")%string, Some (float_str base), "."%char) ] in
  if Py.lt 0 percent then
    Ok (lines ++ [ ("IMPROVED BY", Some (float_str percent ++ " ")%string, "."%char);
                   ("", None, " "%char) ])
  else
    Ok (lines ++ [ ("DEGRADED BY", Some (float_str (Qabs percent) ++ " %")%string, "."%char);
                   ("", None, " "%char) ]).

Record Args : Type := mkArgs {
  args_cached : bool;
  args_runs : Z;
  args_dev : string;
  args_base : string
}.

(** The value that [gather_output] returns (source lines 142 to 151), from
    the contents [dev] and [base] of the two lists. *)
Definition output_lines (args : Args) (dev base : list Q) : result (list ReportLine) :=
  let lines := [ ("command", Some "dbt parse", "."%char);
                 ("dev branch", Some ("dbt/" ++ args_dev args)%string, "."%char);
                 ("base branch", Some ("dbt/" ++ args_base args)%string, "."%char);
                 ("", None, " "%char);
                 ("time measured in seconds", None, " "%char);
                 ("", None, " "%char) ] in
  let? mean_dev := Py.mean dev in
  let? mean_base := Py.mean base in
  let? mean_lines := get_stat "mean" (Py.round mean_dev 2) (Py.round mean_base 2) in
  let? median_dev := Py.median dev in
  let? median_base := Py.median base in
  let? median_lines := get_stat "median" (Py.round median_dev 2) (Py.round median_base 2) in
  Ok (lines ++ mean_lines ++ median_lines).

Definition gather_output (args : Args) (dev base : ref) : M W (list ReportLine) :=
  (* mutably sort by reference *)
  list_sort dev ;;
  list_sort base ;;
  d <- load dev ;;
  b <- load base ;;
  lift (output_lines args d b).

Definition print (line : string) : M W unit := emit (Printed line).

Definition print_results (kvs : list ReportLine) : M W unit :=
  for_each (report_lines kvs) (fun line _ => print line) tt.

Definition log (msg : string) : M W unit := emit (Logged msg).

Record Run : Type := mkRun {
  name : string;
  path : string;
  run_count : Z;
  git_branch : string;
  setup_thunk : action W;
  run_thunk : action W;
  cleanup_thunk : action W;
  time_remaining : list Q -> Z -> result Z;
  runs : ref
}.

(** [Run(...)]: the constructor binds [runs] to a new empty list. *)
Definition Run_init (name path : string) (run_count : Z) (git_branch : string)
    (setup_thunk run_thunk cleanup_thunk : action W)
    (time_remaining : list Q -> Z -> result Z) : M W Run :=
  r <- alloc [] ;;
  ret (mkRun name path run_count git_branch setup_thunk run_thunk cleanup_thunk
             time_remaining r).

(** The branch with [runs] bound to another list object. *)
Definition with_runs (branch : Run) (r : ref) : Run :=
  mkRun (name branch) (path branch) (run_count branch) (git_branch branch)
        (setup_thunk branch) (run_thunk branch) (cleanup_thunk branch)
        (time_remaining branch) r.

(** [branch.runs = l], with [l] a new list object. *)
Definition set_runs (branch : Run) (l : list Q) : M W Run :=
  r <- alloc l ;;
  emit (RunsSet (name branch) l) ;;
  ret (with_runs branch r).

(** The history of the branch: the contents of [branch.runs]. *)
Definition history (branch : Run) (s : state W) : list Q :=
  default [] (heap s !! runs branch).

(** A call of one of the branch's callbacks. *)
Definition call (c : callback) (thunk : action W) : M W unit :=
  emit (Invoked c) ;; host thunk.

(** One pass of the loop of [execute_run] (source lines 191 to 198). *)
Definition trial_cycle (thunk : action W) (branch : Run) : M W Run :=
  l <- load (runs branch) ;;
  log (name branch ++ " run " ++ Py.str (Py.len l + 1) ++ "/" ++ Py.str (run_count branch)) ;;
  run <- time (call Trial thunk) ;;
  l <- load (runs branch) ;;
  branch <- set_runs branch (l ++ [run]) ;;
  l <- load (runs branch) ;;
  emit (Estimated l (run_count branch)) ;;
  remaining <- lift (time_remaining branch l (run_count branch)) ;;
  log ("run completed in " ++ float_str run ++ " seconds") ;;
  log ("estimated time remaining: " ++ time_string remaining) ;;
  log ("running " ++ name branch ++ " cleanup") ;;
  call Cleanup (cleanup_thunk branch) ;;
  ret branch.

Definition execute_run (branch : Run) : M W Run :=
  log ("running " ++ name branch ++ " branch setup") ;;
  call Setup (setup_thunk branch) ;;
  if (run_count branch <? 1)%Z then
    branch <- set_runs branch (repeat 1%Q 10) ;;
    set_runs branch (repeat 1%Q 10)
  else
    for_each (repeat (run_thunk branch) (Z.to_nat (run_count branch))) trial_cycle branch.

Definition subprocess_with_errs (cmd : string) : action W := check_output cmd.

Definition setup (workspace_path : string) (dev_run base_run : Run) : M W unit :=
  log "setting up directories" ;;
  let dev_path := path dev_run in
  let base_path := path base_run in
  host (create_if_doesnt_exist workspace_path) ;;
  host (remove_and_recreate_dir dev_path) ;;
  host (remove_and_recreate_dir base_path) ;;
  log "cloning both branches with local identity" ;;
  log "may ask for ssh password twice (once for each branch)" ;;
  host (clone_from "git@github.com:fishtown-analytics/dbt" dev_path (git_branch dev_run)) ;;
  host (clone_from "git@github.com:fishtown-analytics/dbt" base_path (git_branch base_run)) ;;
  host (subprocess_with_errs ("cd " ++ dev_path ++ " && python3 -m venv env")) ;;
  host (subprocess_with_errs ("cd " ++ base_path ++ " && python3 -m venv env")) ;;
  host (subprocess_with_errs
          ("cd " ++ dev_path ++ " && source env/bin/activate && pip install --upgrade pip")) ;;
  host (subprocess_with_errs
          ("cd " ++ base_path ++ " && source env/bin/activate && pip install --upgrade pip")) ;;
  log "installing dev branch" ;;
  host (subprocess_with_errs
          ("cd " ++ dev_path ++
           " && source env/bin/activate && pip install -r requirements.txt -r dev_requirements.txt")) ;;
  log "installing base branch" ;;
  host (subprocess_with_errs
          ("cd " ++ base_path ++
           " && source env/bin/activate && pip install -r requirements.txt -r dev_requirements.txt")).

(** The estimator of the dev branch (source line 270). *)
Definition dev_time_remaining (l : list Q) (n : Z) : result Z :=
  let? m := Py.mean l in
  Ok (Py.int (Py.round (m * inject_Z (2 * n - Py.len l)) 0)).

(** The estimator of the base branch (source line 282). *)
Definition base_time_remaining (l : list Q) (n : Z) : result Z :=
  let? m := Py.mean l in
  Ok (Py.int (Py.round (m * inject_Z (n - Py.len l)) 0)).

Definition list_str (l : list Q) : string :=
  "[" ++ String.concat ", " (map float_str l) ++ "]".

(** [main()], after the command line has been parsed into [args]. *)
Definition main (args : Args) : M W unit :=
  print "" ;;
  print ":::: Benchmark.py ::::" ;;
  let workspace_dir := "target" in
  let dev_dir := "dev" in
  let base_dir := "base" in
  let workspace_path := path_from [workspace_dir] in
  let dev_path := path_from [workspace_dir; dev_dir] in
  let base_path := path_from [workspace_dir; base_dir] in
  let partial_parse_path := path_from ["target"; "partial_parse.pickle"] in
  dev <- Run_init "dev" dev_path (args_runs args) (args_dev args)
           (remove_if_exists partial_parse_path)
           (subprocess_with_errs
              ("cd " ++ dev_path ++ " && source env/bin/activate && cd ../.. && dbt parse"))
           (remove_if_exists partial_parse_path)
           dev_time_remaining ;;
  base <- Run_init "base" base_path (args_runs args) (args_base args)
           (remove_if_exists partial_parse_path)
           (subprocess_with_errs
              ("cd " ++ base_path ++ " && source env/bin/activate && cd ../.. && dbt parse"))
           (remove_if_exists partial_parse_path)
           base_time_remaining ;;
  (if negb (args_cached args) then setup workspace_path dev base else ret tt) ;;
  dev <- execute_run dev ;;
  base <- execute_run base ;;
  print "" ;;
  kvs <- gather_output args (runs dev) (runs base) ;;
  print_results kvs ;;
  dev_runs <- load (runs dev) ;;
  print ("raw dev_runs:  " ++ list_str dev_runs) ;;
  base_runs <- load (runs base) ;;
  print ("raw base_runs: " ++ list_str base_runs) ;;
  print "".

End Program.

Arguments Run W : clear implicits.

(** ** Reading a trace *)

(** An event without what it carries. *)
Inductive kind : Type :=
| KPrinted | KLogged | KInvoked (c : callback) | KClockRead | KRunsSet | KEstimated.

Definition kind_of (e : event) : kind :=
  match e with
  | Printed _ => KPrinted
  | Logged _ => KLogged
  | Invoked c => KInvoked c
  | ClockRead _ => KClockRead
  | RunsSet _ _ => KRunsSet
  | Estimated _ _ => KEstimated
  end.

Definition callback_eqb (c d : callback) : bool :=
  match c, d with
  | Setup, Setup | Trial, Trial | Cleanup, Cleanup => true
  | _, _ => false
  end.

Definition kind_eqb (j k : kind) : bool :=
  match j, k with
  | KPrinted, KPrinted | KLogged, KLogged | KClockRead, KClockRead
  | KRunsSet, KRunsSet | KEstimated, KEstimated => true
  | KInvoked c, KInvoked d => callback_eqb c d
  | _, _ => false
  end.

(** How many times the callback [c] is called in [evs]. *)
Fixpoint invocations (c : callback) (evs : list event) : nat :=
  match evs with
  | [] => 0
  | Invoked d :: evs' => (if callback_eqb c d then 1 else 0) + invocations c evs'
  | _ :: evs' => invocations c evs'
  end.

(** Events of the kinds [ks] occur in [evs] in that order, with anything
    in between. *)
Fixpoint occur_in_order (ks : list kind) (evs : list event) : bool :=
  match ks, evs with
  | [], _ => true
  | _ :: _, [] => false
  | k :: ks', e :: evs' =>
      if kind_eqb k (kind_of e) then occur_in_order ks' evs' else occur_in_order ks evs'
  end.

(** A rebinding of [branch.runs] that only extends the history [h], by at
    least one and at most [n] durations; any other event passes. *)
Definition runs_set_between (h : list Q) (n : nat) (e : event) : Prop :=
  match e with
  | RunsSet _ l =>
      h `prefix_of` l /\ (List.length h < List.length l <= List.length h + n)%nat
  | _ => True
  end.

(** The kinds of the events of the branch-level setup and of one pass of
    the loop of [execute_run], in the order of the source. *)
Definition setup_shape : list kind := [KLogged; KInvoked Setup].

Definition cycle_shape : list kind :=
  [ KLogged; KClockRead; KInvoked Trial; KClockRead; KRunsSet; KEstimated;
    KLogged; KLogged; KLogged; KInvoked Cleanup ].

Definition run_shape (n : nat) : list kind :=
  setup_shape ++ concat (repeat cycle_shape n).

Section CycleEvents.
Context {W : Type} `{Host W}.

(** What one pass of the loop emits up to the call of the trial; [l] is
    the history so far and [t0] the clock. *)
Definition cycle_head (branch : Run W) (l : list Q) (t0 : Q) : list event :=
  [ Logged (name branch ++ " run " ++ Py.str (Py.len l + 1) ++ "/" ++
            Py.str (run_count branch));
    ClockRead t0; Invoked Trial ].

(** What it emits between the return of the trial and the answer of the
    estimator; [l] is the history with the new duration at its end. *)
Definition cycle_middle (branch : Run W) (l : list Q) (t1 : Q) : list event :=
  [ ClockRead t1; RunsSet (name branch) l; Estimated l (run_count branch) ].

(** What it emits from there on. *)
Definition cycle_tail (branch : Run W) (run : Q) (remaining : Z) : list event :=
  [ Logged ("run completed in " ++ float_str run ++ " seconds");
    Logged ("estimated time remaining: " ++ time_string remaining);
    Logged ("running " ++ name branch ++ " cleanup");
    Invoked Cleanup ].

(** The events of a whole pass that starts with history [l], reads the
    clock at [t0] and [t1] around the trial, and is told [remaining]. *)
Definition cycle_events (branch : Run W) (l : list Q) (t0 t1 : Q) (remaining : Z)
    : list event :=
  let run := Py.round (t1 - t0) 3 in
  cycle_head branch l t0 ++ cycle_middle branch (l ++ [run]) t1 ++
  cycle_tail branch run remaining.

(** [cycles branch l evs l']: [evs] is what a sequence of whole passes
    emits that takes the history from [l] to [l']. *)
Inductive cycles (branch : Run W) : list Q -> list event -> list Q -> Prop :=
| cycles_none (l : list Q) : cycles branch l [] l
| cycles_pass (l : list Q) (t0 t1 : Q) (remaining : Z) (evs : list event) (l' : list Q) :
    time_remaining branch (l ++ [Py.round (t1 - t0) 3]) (run_count branch) = Ok remaining ->
    cycles branch (l ++ [Py.round (t1 - t0) 3]) evs l' ->
    cycles branch l (cycle_events branch l t0 t1 remaining ++ evs) l'.

End CycleEvents.

(** ** The specification's own words *)

(** The order of a trial cycle as the specification has it: the trial is
    timed, the duration appended, the cleanup invoked, then the estimator
    queried and the progress logged. *)
Definition specified_cycle_order : list kind :=
  [KInvoked Trial; KRunsSet; KInvoked Cleanup; KEstimated; KLogged].

(** The conventional median of durations given in ascending order: the one
    in the middle, or the average of the two in the middle when there is
    an even number of them. *)
Definition conventional_median (s : list Q) : Q :=
  let n := List.length s in
  if Nat.even n then ((nth (n / 2 - 1) s 0 + nth (n / 2) s 0) / 2)%Q
  else nth (n / 2) s 0%Q.

(** The arithmetic mean. *)
Definition arithmetic_mean (h : list Q) : Q :=
  (fold_right Qplus 0 h / inject_Z (Z.of_nat (List.length h)))%Q.

(** The integer quotient rounded up. *)
Definition ceil_div (a d : Z) : Z := (a + d - 1) / d.

(** The display of a number of seconds as the specification has it. *)
Definition specified_time_string (N : Z) : string :=
  if (N <=? 60)%Z then Py.str N ++ " seconds"
  else if (N <=? 3600)%Z then Py.str (ceil_div N 60) ++ " minutes"
  else Py.str (ceil_div N 3600) ++ " hours".

(** An input of the formatter the specification calls valid: not empty,
    with a line that has a value. *)
Definition valid_input (kvs : list ReportLine) : bool :=
  existsb (fun kv => match value kv with Some _ => true | None => false end) kvs.

(** Two lists of the same durations, position by position. *)
Definition same_values (l k : list Q) : Prop := Forall2 Qeq l k.

(** The computation returned. *)
Definition is_ok {A} (r : result A) : bool :=
  match r with
  | Ok _ => true
  | Raise _ => false
  end.

(** All rows have one length. *)
Definition rows_equal (rows : list string) : Prop :=
  forall r1 r2, In r1 rows -> In r2 rows -> String.length r1 = String.length r2.


(** ** A small host, to run the program on

    The world is a clock and a script: the durations, in seconds, that the
    coming calls of [subprocess.check_output] will take.  There is no file
    system to speak of. *)

Module Toy.

Definition world : Type := Q * list Q.

Definition run_command (cmd : string) : action world :=
  fun w => match snd w with
           | [] => (Raise (HostError cmd), w)
           | d :: script => (Ok tt, (Qred (fst w + d), script))
           end.

Definition nothing : action world := fun w => (Ok tt, w).

Definition failing : action world := fun w => (Raise (HostError "failed"), w).

(** The decimals of [r / d] after the point, as long as there are any. *)
Fixpoint decimals (fuel : nat) (r d : Z) : string :=
  match fuel with
  | O => ""
  | S fuel' =>
      if (r =? 0)%Z then ""
      else (Py.str (10 * r / d) ++ decimals fuel' (10 * r mod d) d)%string
  end.

(** A float with few decimals, the way Python writes it: [5.0], [-0.25]. *)
Definition show_float (x : Q) : string :=
  let n := Z.abs (Qnum x) in
  let d := Z.pos (Qden x) in
  let frac := decimals 20 (n mod d) d in
  ((if (Qnum x <? 0)%Z then "-" else "") ++ Py.str (n / d) ++ "." ++
   (if String.eqb frac "" then "0" else frac))%string.

#[global] Instance host : Host world := {|
  perf_counter := fst;
  float_str := show_float;
  path_exists := fun _ _ => false;
  os_mkdir := fun _ => nothing;
  os_remove := fun _ => nothing;
  rmtree := fun _ => nothing;
  clone_from := fun _ _ _ => nothing;
  check_output := run_command
|}.

(** The start: the clock at [0], an empty heap, nothing traced. *)
Definition start (script : list Q) : state world := mkState (0%Q, script) [] [].

(** A branch whose trial takes the next duration of the script. *)
Definition branch (run_count : Z) (setup_thunk : action world)
    (time_remaining : list Q -> Z -> result Z) (runs : ref) : Run world :=
  mkRun "dev" "./target/dev" run_count "feature" setup_thunk
        (run_command "dbt parse") nothing time_remaining runs.

Definition args : Args := mkArgs true 3 "feature" "develop".

(** Two histories in completion order, as two list objects. *)
Definition two_histories : state world :=
  mkState (0%Q, []) [[3; 1; 2]; [2; 1]]%Q [].

(** A branch has just been constructed: its history is the empty list
    behind reference [0]. *)
Definition fresh (script : list Q) : state world := mkState (0%Q, script) [[]] [].

(** A branch of the base kind with [n] planned trials. *)
Definition base_branch (n : Z) : Run world := branch n nothing base_time_remaining 0%nat.

(** A branch with no planned trial whose trial and cleanup would fail. *)
Definition dry_branch : Run world :=
  mkRun "dev" "./target/dev" 0 "feature" nothing failing failing dev_time_remaining 0%nat.

End Toy.

(** ** Notions that the further theorems speak of *)

(** The estimator is asked about a history that is not empty, and about the
    planned count [n]. *)
Definition estimated_on (n : Z) (e : event) : Prop :=
  match e with
  | Estimated l m => l <> [] /\ m = n
  | _ => True
  end.

(** A statistic rounded to two decimals, as it goes into [get_stat]. *)
Definition rounded (r : result Q) : result Q := let? m := r in Ok (Py.round m 2).

(** The full width: the widest label of a line with a value, the widest
    value, and six more. *)
Definition full_width_of (kvs : list ReportLine) : Z :=
  min_separation + max_key_width (header_line :: kvs)
  + max_value_width (header_line :: kvs).

(** The ten made-up durations of a dry run. *)
Definition sentinels : list Q := repeat 1%Q 10.

(** What [setup] logs, in its order. *)
Definition setup_messages : list string :=
  [ "setting up directories";
    "cloning both branches with local identity";
    "may ask for ssh password twice (once for each branch)";
    "installing dev branch";
    "installing base branch" ].

Section DryRunReport.
Context {W : Type} `{Host W}.

(** The statistics lines of two histories of ten durations of one second. *)
Definition dry_run_lines (args : Args) : list ReportLine :=
  [ ("command", Some "dbt parse", "."%char);
    ("dev branch", Some ("dbt/" ++ args_dev args)%string, "."%char);
    ("base branch", Some ("dbt/" ++ args_base args)%string, "."%char);
    ("", None, " "%char);
    ("time measured in seconds", None, " "%char);
    ("", None, " "%char);
    ("mean dev", Some (float_str 1), "."%char);
    ("mean base", Some (float_str 1), "."%char);
    ("DEGRADED BY", Some (float_str 0 ++ " %")%string, "."%char);
    ("", None, " "%char);
    ("median dev", Some (float_str 1), "."%char);
    ("median base", Some (float_str 1), "."%char);
    ("DEGRADED BY", Some (float_str 0 ++ " %")%string, "."%char);
    ("", None, " "%char) ].

End DryRunReport.

(** ** More of the toy host: a steady trial, and a dry run of [main] *)

Module Steady.

(** A trial that takes one second, whatever the script holds. *)
Definition tick : action Toy.world :=
  fun w => (Ok tt, (Qred (fst w + 1), snd w)).

(** A branch of the base kind whose callbacks cannot fail. *)
Definition branch (run_count : Z) : Run Toy.world :=
  mkRun "base" "./target/base" run_count "develop" Toy.nothing tick Toy.nothing
        base_time_remaining 0%nat.

(** A branch of the dev kind whose setup fails. *)
Definition broken_setup : Run Toy.world :=
  Toy.branch 3 Toy.failing dev_time_remaining 0%nat.

(** [benchmark.py --cached --runs 0 feature develop]. *)
Definition dry_args : Args := mkArgs true 0 "feature" "develop".

(** A statistics line and the separator after it. *)
Definition stat_lines : list ReportLine :=
  [("mean dev", Some "5.0", "."%char); ("", None, " "%char)].

End Steady.

(** ** A host with files: the world is the list of the paths that exist *)

Module Files.

Definition world : Type := list string.

Definition present (path : string) (w : world) : bool :=
  existsb (String.eqb path) w.

Definition without (path : string) (w : world) : world :=
  List.filter (fun p => negb (String.eqb path p)) w.

(** [os.mkdir(path)] raises [FileExistsError] when the path exists. *)
Definition mkdir (path : string) : action world :=
  fun w => if present path w then (Raise (HostError "FileExistsError"), w)
           else (Ok tt, path :: w).

(** [os.remove(path)] and [rmtree(path)] raise [FileNotFoundError] when
    the path does not exist. *)
Definition remove (path : string) : action world :=
  fun w => if present path w then (Ok tt, without path w)
           else (Raise (HostError "FileNotFoundError"), w).

Definition host : Host world := {|
  perf_counter := fun _ => 0%Q;
  float_str := Toy.show_float;
  path_exists := present;
  os_mkdir := mkdir;
  os_remove := remove;
  rmtree := remove;
  clone_from := fun _ _ _ w => (Ok tt, w);
  check_output := fun _ w => (Ok tt, w)
|}.

(** The same files where no directory can be made. *)
Definition read_only : Host world := {|
  perf_counter := fun _ => 0%Q;
  float_str := Toy.show_float;
  path_exists := present;
  os_mkdir := fun _ w => (Raise (HostError "PermissionError"), w);
  os_remove := remove;
  rmtree := remove;
  clone_from := fun _ _ _ w => (Ok tt, w);
  check_output := fun _ w => (Ok tt, w)
|}.

(** The cache file of a parse is there, beside two directories. *)
Definition parsed : world :=
  ["./target/partial_parse.pickle"; "./target"; "./logs"].

End Files.

(** ** Facts about the built-ins *)


Module PyFacts.
Import Py.

Lemma Qle_bool_false (x y : Q) : Qle_bool x y = false -> (y < x)%Q.
Proof.
  intros Hb. apply Qnot_le_lt. intros Hle.
  apply Qle_bool_iff in Hle. congruence.
Qed.

Lemma Qle_bool_true (x y : Q) : Qle_bool x y = true -> (x <= y)%Q.
Proof. apply Qle_bool_iff. Qed.

Lemma Qle_bool_Qeq (x y y' : Q) : (y == y')%Q -> Qle_bool x y = Qle_bool x y'.
Proof.
  intros Hy. destruct (Qle_bool x y) eqn:E1, (Qle_bool x y') eqn:E2; try reflexivity.
  - apply Qle_bool_true in E1. apply Qle_bool_false in E2. lra.
  - apply Qle_bool_true in E2. apply Qle_bool_false in E1. lra.
Qed.

(** *** Rounding *)

Lemma round_half_even_Qeq (x y : Q) :
  (x == y)%Q -> round_half_even x = round_half_even y.
Proof.
  intros Hxy. unfold round_half_even.
  rewrite (Qfloor_comp _ _ Hxy).
  assert (Hc : ((x - inject_Z (Qfloor y)) ?= (1 # 2))%Q =
               ((y - inject_Z (Qfloor y)) ?= (1 # 2))%Q).
  { apply Qcompare_comp; [rewrite Hxy|]; reflexivity. }
  rewrite Hc. reflexivity.
Qed.

(** [round_half_even x] is an integer nearest to [x]. *)
Lemma round_half_even_nearest (x : Q) :
  (Qabs (inject_Z (round_half_even x) - x) <= 1 # 2)%Q.
Proof.
  unfold round_half_even.
  pose proof (Qfloor_le x) as Hlo.
  pose proof (Qlt_floor x) as Hhi.
  rewrite inject_Z_plus in Hhi.
  change (inject_Z 1) with 1%Q in Hhi.
  apply Qabs_Qle_condition.
  destruct (Qcompare_spec (x - inject_Z (Qfloor x)) (1 # 2)) as [He|Hl|Hg].
  - destruct (Z.even (Qfloor x)).
    + split; lra.
    + rewrite inject_Z_plus. change (inject_Z 1) with 1%Q. split; lra.
  - split; lra.
  - rewrite inject_Z_plus. change (inject_Z 1) with 1%Q. split; lra.
Qed.

Lemma round_Qeq (x y : Q) (ndigits : nat) :
  (x == y)%Q -> round x ndigits = round y ndigits.
Proof.
  intros Hxy. unfold round.
  rewrite (round_half_even_Qeq (x * inject_Z (Z.pos (pow10 ndigits)))
                               (y * inject_Z (Z.pos (pow10 ndigits)))).
  - reflexivity.
  - rewrite Hxy. reflexivity.
Qed.

Lemma int_Qeq (x y : Q) : (x == y)%Q -> int x = int y.
Proof.
  intros Hxy. unfold int.
  rewrite (Qfloor_comp _ _ Hxy), (Qceiling_comp _ _ Hxy).
  replace (Qle_bool 0 x) with (Qle_bool 0 y); [reflexivity|].
  symmetry. apply Qle_bool_Qeq. exact Hxy.
Qed.

Lemma int_inject_Z (z : Z) : int (inject_Z z) = z.
Proof.
  unfold int. destruct (Qle_bool 0 (inject_Z z)).
  - apply Qfloor_Z.
  - apply Qceiling_Z.
Qed.

(** [int(round(x, 0))] is the nearest integer, ties to even. *)
Lemma int_round_0 (x : Q) : int (round x 0) = round_half_even x.
Proof.
  unfold round. simpl pow10.
  rewrite (int_Qeq _ (inject_Z (round_half_even (x * inject_Z 1)))).
  - rewrite int_inject_Z. apply round_half_even_Qeq.
    change (inject_Z 1) with 1%Q. ring.
  - rewrite Qred_correct. reflexivity.
Qed.

(** *** The mean *)

Lemma sum_fold_left (l : list Q) (a : Q) :
  (fold_left Qplus l a == a + fold_right Qplus 0 l)%Q.
Proof.
  revert a. induction l as [|x l IH]; intros a; simpl.
  - ring.
  - rewrite IH. ring.
Qed.

Lemma sum_fold_right (l : list Q) : (sum l == fold_right Qplus 0 l)%Q.
Proof. unfold sum. rewrite sum_fold_left. ring. Qed.

Lemma mean_nonempty (l : list Q) :
  l <> [] -> mean l = Ok (sum l / inject_Z (len l))%Q.
Proof. destruct l; [congruence | reflexivity]. Qed.

End PyFacts.

(** ** Sorting *)

Module SortFacts.
Import Py PyFacts.

Lemma same_values_refl (l : list Q) : same_values l l.
Proof. induction l; constructor; [reflexivity | assumption]. Qed.

Lemma same_values_sym (l k : list Q) : same_values l k -> same_values k l.
Proof. induction 1; constructor; [symmetry|]; assumption. Qed.

Lemma same_values_trans (l k m : list Q) :
  same_values l k -> same_values k m -> same_values l m.
Proof.
  intros Hlk. revert m. induction Hlk as [|x y l k Hxy _ IH]; intros m Hkm.
  - exact Hkm.
  - inversion Hkm as [|y' z k' m' Hyz Hkm' E1 E2]; subst.
    constructor; [rewrite Hxy; exact Hyz | apply IH; exact Hkm'].
Qed.

Lemma same_values_length (l k : list Q) :
  same_values l k -> List.length l = List.length k.
Proof. induction 1; simpl; congruence. Qed.

Lemma same_values_nth (l k : list Q) (i : nat) :
  same_values l k -> (nth i l 0 == nth i k 0)%Q.
Proof.
  intros Hlk. revert i. induction Hlk as [|x y l k Hxy _ IH]; intros [|i]; simpl;
    try reflexivity; [exact Hxy | apply IH].
Qed.

Lemma insert_perm (x : Q) (l : list Q) : Permutation (insert x l) (x :: l).
Proof.
  induction l as [|y l IH]; simpl.
  - reflexivity.
  - destruct (Qle_bool x y).
    + reflexivity.
    + rewrite IH. apply perm_swap.
Qed.

Lemma sorted_perm (l : list Q) : Permutation (sorted l) l.
Proof.
  induction l as [|x l IH]; simpl.
  - reflexivity.
  - rewrite insert_perm. apply perm_skip. exact IH.
Qed.

Lemma sorted_length (l : list Q) : List.length (sorted l) = List.length l.
Proof. apply Permutation_length, sorted_perm. Qed.

Lemma insert_hd (x a : Q) (l : list Q) :
  (a <= x)%Q -> HdRel Qle a l -> HdRel Qle a (insert x l).
Proof.
  intros Hax Hal. destruct l as [|y l]; simpl.
  - constructor. exact Hax.
  - destruct (Qle_bool x y); constructor.
    + exact Hax.
    + inversion Hal; assumption.
Qed.

Lemma insert_Sorted (x : Q) (l : list Q) : Sorted Qle l -> Sorted Qle (insert x l).
Proof.
  induction 1 as [|y l Hl IH Hy]; simpl.
  - repeat constructor.
  - destruct (Qle_bool x y) eqn:E.
    + apply Qle_bool_true in E. repeat constructor; assumption.
    + apply Qle_bool_false in E. constructor; [exact IH|].
      apply insert_hd; [lra | exact Hy].
Qed.

Lemma sorted_Sorted (l : list Q) : Sorted Qle (sorted l).
Proof.
  induction l as [|x l IH]; simpl.
  - constructor.
  - apply insert_Sorted. exact IH.
Qed.

(** Sorting a list that is in ascending order leaves it as it is. *)
Lemma sorted_fixes_Sorted (l : list Q) : Sorted Qle l -> sorted l = l.
Proof.
  induction 1 as [|x l Hl IH Hx]; simpl.
  - reflexivity.
  - rewrite IH. destruct Hx as [|y l Hxy]; simpl.
    + reflexivity.
    + apply Qle_bool_iff in Hxy. rewrite Hxy. reflexivity.
Qed.

Lemma sorted_idempotent (l : list Q) : sorted (sorted l) = sorted l.
Proof. apply sorted_fixes_Sorted, sorted_Sorted. Qed.

Lemma insert_same_values (x : Q) (l k : list Q) :
  same_values l k -> same_values (insert x l) (insert x k).
Proof.
  induction 1 as [|y z l k Hyz Hlk IH]; simpl.
  - apply same_values_refl.
  - rewrite (Qle_bool_Qeq x y z Hyz).
    destruct (Qle_bool x z); repeat constructor; try assumption; reflexivity.
Qed.

Ltac order_cases :=
  repeat match goal with
    | |- context [Qle_bool ?a ?b] => destruct (Qle_bool a b) eqn:?
    end;
  repeat match goal with
    | E : Qle_bool _ _ = true |- _ => apply Qle_bool_true in E
    | E : Qle_bool _ _ = false |- _ => apply Qle_bool_false in E
    end.

Lemma insert_insert (x y : Q) (l : list Q) :
  same_values (insert x (insert y l)) (insert y (insert x l)).
Proof.
  induction l as [|z l IH]; simpl.
  - order_cases; try (exfalso; lra);
      repeat constructor; try reflexivity; lra.
  - destruct (Qle_bool y z) eqn:Eyz, (Qle_bool x z) eqn:Exz; simpl;
      rewrite ?Eyz, ?Exz;
      try apply Qle_bool_true in Eyz; try apply Qle_bool_false in Eyz;
      try apply Qle_bool_true in Exz; try apply Qle_bool_false in Exz.
    + order_cases; try (exfalso; lra);
        repeat constructor; try apply same_values_refl; try reflexivity; lra.
    + order_cases; try (exfalso; lra);
        repeat constructor; try apply same_values_refl; reflexivity.
    + order_cases; try (exfalso; lra);
        repeat constructor; try apply same_values_refl; reflexivity.
    + constructor; [reflexivity | exact IH].
Qed.

(** The ascending arrangement depends only on which durations there are. *)
Lemma sorted_Permutation (l k : list Q) :
  Permutation l k -> same_values (sorted l) (sorted k).
Proof.
  induction 1 as [|x l k _ IH|x y l|l k m _ IH1 _ IH2]; simpl.
  - constructor.
  - apply insert_same_values. exact IH.
  - apply insert_insert.
  - eapply same_values_trans; eassumption.
Qed.

(** Any ascending arrangement of [l] has the values of [sorted l]. *)
Lemma Sorted_unique (l s : list Q) :
  Permutation s l -> Sorted Qle s -> same_values s (sorted l).
Proof.
  intros Hp Hs. rewrite <- (sorted_fixes_Sorted s Hs).
  apply sorted_Permutation. exact Hp.
Qed.

End SortFacts.

(** ** What a run does, step by step *)

Section RunFacts.
Context {W : Type} `{Host W}.

Lemma history_alloc (branch : Run W) (s : state W) (l : list Q) (w : W) (tr : list event) :
  history (with_runs branch (List.length (heap s))) (mkState w (heap s ++ [l]) tr) = l.
Proof.
  unfold history. cbn [runs with_runs heap].
  rewrite (list_lookup_middle (heap s) [] l (List.length (heap s)) eq_refl).
  reflexivity.
Qed.

(** The degenerate run, in full. *)
Lemma execute_run_dry (branch : Run W) (s : state W) :
  run_count branch < 1 ->
  execute_run branch s =
    let tr := trace s ++ [Logged ("running " ++ name branch ++ " branch setup");
                          Invoked Setup] in
    match setup_thunk branch (world s) with
    | (Raise e, w) => (Raise e, mkState w (heap s) tr)
    | (Ok _, w) =>
        (Ok (with_runs branch (S (List.length (heap s)))),
         mkState w (heap s ++ [repeat 1%Q 10; repeat 1%Q 10])
                 (tr ++ [RunsSet (name branch) (repeat 1%Q 10);
                         RunsSet (name branch) (repeat 1%Q 10)]))
    end.
Proof.
  intros Hlt. apply Z.ltb_lt in Hlt.
  unfold execute_run, log, call, emit, host, bind. cbn [world heap trace].
  rewrite <- app_assoc. cbn [app].
  destruct (setup_thunk branch (world s)) as [[u|e] w]; [|reflexivity].
  rewrite Hlt. unfold set_runs, alloc, emit, bind, ret. cbn.
  rewrite length_app, <- !app_assoc. cbn.
  repeat f_equal. lia.
Qed.

(** One pass of the loop, in full. *)
Lemma trial_cycle_eq (thunk : action W) (branch : Run W) (s : state W) :
  trial_cycle thunk branch s =
    let l := history branch s in
    let t0 := perf_counter (world s) in
    let tr1 := trace s ++ cycle_head branch l t0 in
    match thunk (world s) with
    | (Raise e, w1) => (Raise e, mkState w1 (heap s) tr1)
    | (Ok _, w1) =>
        let t1 := perf_counter w1 in
        let run := Py.round (t1 - t0) 3 in
        let tr2 := tr1 ++ cycle_middle branch (l ++ [run]) t1 in
        let hp := heap s ++ [l ++ [run]] in
        match time_remaining branch (l ++ [run]) (run_count branch) with
        | Raise e => (Raise e, mkState w1 hp tr2)
        | Ok remaining =>
            let tr3 := tr2 ++ cycle_tail branch run remaining in
            match cleanup_thunk branch w1 with
            | (Raise e, w2) => (Raise e, mkState w2 hp tr3)
            | (Ok _, w2) => (Ok (with_runs branch (List.length (heap s))), mkState w2 hp tr3)
            end
        end
    end.
Proof.
  unfold trial_cycle, time, log, call, emit, host, ask, load, lift, bind, ret.
  cbn [world heap trace].
  unfold cycle_head, history. rewrite <- !app_assoc. cbn [app].
  destruct (thunk (world s)) as [[u|e] w1]; [|reflexivity].
  unfold set_runs, alloc, emit, bind, ret. cbn [world heap trace runs with_runs].
  rewrite (list_lookup_middle (heap s) [] _ (List.length (heap s)) eq_refl).
  cbn [default from_option name run_count time_remaining cleanup_thunk with_runs].
  unfold cycle_middle, cycle_tail.
  destruct (time_remaining branch _ (run_count branch)) as [remaining|e];
    [|rewrite <- !app_assoc; reflexivity].
  destruct (cleanup_thunk branch w1) as [[u'|e] w2];
    cbn [world heap trace]; rewrite <- !app_assoc; reflexivity.
Qed.

Lemma cycles_with_runs (branch : Run W) (r : ref) (l l' : list Q) (evs : list event) :
  cycles (with_runs branch r) l evs l' -> cycles branch l evs l'.
Proof.
  induction 1 as [l|l t0 t1 remaining evs l' Hest _ IH].
  - constructor.
  - exact (cycles_pass branch l t0 t1 remaining evs l' Hest IH).
Qed.

Lemma with_runs_same (branch : Run W) : branch = with_runs branch (runs branch).
Proof. destruct branch; reflexivity. Qed.

Lemma runs_set_between_weaken (h : list Q) (x : Q) (n : nat) (e : event) :
  runs_set_between (h ++ [x]) n e -> runs_set_between h (S n) e.
Proof.
  destruct e; simpl; trivial.
  rewrite length_app. simpl. intros [[k Hk] Hlen]. split.
  - exists ([x] ++ k). rewrite Hk, <- app_assoc. reflexivity.
  - lia.
Qed.

(** The loop of [execute_run]: [n] passes, or fewer when something fails. *)
Lemma for_each_cycles (thunk : action W) (n : nat) (branch : Run W) (s : state W) :
  exists evs,
    trace (snd (for_each (repeat thunk n) trial_cycle branch s)) = trace s ++ evs /\
    map kind_of evs `prefix_of` concat (repeat cycle_shape n) /\
    Forall (runs_set_between (history branch s) n) evs /\
    invocations Setup evs = 0%nat /\
    forall b', fst (for_each (repeat thunk n) trial_cycle branch s) = Ok b' ->
      map kind_of evs = concat (repeat cycle_shape n) /\
      cycles branch (history branch s) evs
             (history b' (snd (for_each (repeat thunk n) trial_cycle branch s))) /\
      (exists r, b' = with_runs branch r) /\
      List.length (history b' (snd (for_each (repeat thunk n) trial_cycle branch s))) =
        (List.length (history branch s) + n)%nat.
Proof.
  revert branch s. induction n as [|n IH]; intros branch s.
  - cbn [repeat for_each]. exists []. unfold ret. cbn [fst snd]. rewrite app_nil_r.
    split; [reflexivity|]. split; [exists []; reflexivity|].
    split; [constructor|]. split; [reflexivity|].
    intros b' Hb'. injection Hb' as <-.
    split; [reflexivity|]. split; [constructor|].
    split; [exists (runs branch); apply with_runs_same | lia].
  - assert (Hstep : for_each (repeat thunk (S n)) trial_cycle branch s =
                      match trial_cycle thunk branch s with
                      | (Ok b', s') => for_each (repeat thunk n) trial_cycle b' s'
                      | (Raise e, s') => (Raise e, s')
                      end) by reflexivity.
    rewrite Hstep. clear Hstep. rewrite trial_cycle_eq. cbv zeta.
    set (l := history branch s). set (t0 := perf_counter (world s)).
    destruct (thunk (world s)) as [[u|e] w1].
    2:{ exists (cycle_head branch l t0). cbn [fst snd trace].
        split; [reflexivity|]. split; [eexists; reflexivity|].
        split; [repeat constructor|].
        split; [reflexivity | intros b' Hb'; discriminate]. }
    set (t1 := perf_counter w1). set (run := Py.round (t1 - t0) 3).
    destruct (time_remaining branch (l ++ [run]) (run_count branch)) as [remaining|e] eqn:Hest.
    2:{ exists (cycle_head branch l t0 ++ cycle_middle branch (l ++ [run]) t1).
        cbn [fst snd trace]. rewrite <- app_assoc.
        split; [reflexivity|]. split; [eexists; reflexivity|].
        split; [|split; [reflexivity | intros b' Hb'; discriminate]].
        repeat constructor; simpl.
        - exists [run]. reflexivity.
        - rewrite length_app. simpl. lia.
        - rewrite length_app. simpl. lia. }
    destruct (cleanup_thunk branch w1) as [[u'|e] w2].
    2:{ exists (cycle_events branch l t0 t1 remaining).
        cbn [fst snd trace]. unfold cycle_events. fold run. rewrite <- !app_assoc.
        split; [reflexivity|]. split; [eexists; reflexivity|].
        split; [|split; [reflexivity | intros b' Hb'; discriminate]].
        repeat constructor; simpl.
        - exists [run]. reflexivity.
        - rewrite length_app. simpl. lia.
        - rewrite length_app. simpl. lia. }
    set (b1 := with_runs branch (List.length (heap s))).
    set (s1 := mkState w2 _ _).
    destruct (IH b1 s1) as (evs & Htr & Hpre & Hall & Hsetup & Hok).
    assert (Hh1 : history b1 s1 = l ++ [run]) by apply history_alloc.
    rewrite Hh1 in *.
    exists (cycle_events branch l t0 t1 remaining ++ evs).
    split; [|split; [|split; [|split]]].
    + rewrite Htr. unfold s1. cbn [trace]. unfold cycle_events. fold run.
      rewrite <- !app_assoc. reflexivity.
    + rewrite map_app. destruct Hpre as [k Hk]. exists k.
      cbn [repeat concat]. rewrite Hk, <- app_assoc. reflexivity.
    + apply Forall_app. split.
      * repeat constructor; simpl.
        -- exists [run]. reflexivity.
        -- rewrite length_app. simpl. lia.
        -- rewrite length_app. simpl. lia.
      * eapply List.Forall_impl; [|exact Hall].
        intros e. apply runs_set_between_weaken.
    + unfold cycle_events, cycle_head, cycle_middle, cycle_tail. cbn. exact Hsetup.
    + intros b' Hb'. destruct (Hok b' Hb') as (Hk & Hcy & [r Hr] & Hlen).
      split; [|split; [|split]].
      * rewrite map_app, Hk. reflexivity.
      * apply cycles_pass; [exact Hest|].
        apply cycles_with_runs with (r := List.length (heap s)). exact Hcy.
      * exists r. rewrite Hr. reflexivity.
      * rewrite Hlen, length_app. simpl. lia.
Qed.

(** A real run: the branch-level setup, then the loop. *)
Lemma execute_run_real (branch : Run W) (s : state W) :
  1 <= run_count branch ->
  execute_run branch s =
    let tr := trace s ++ [Logged ("running " ++ name branch ++ " branch setup");
                          Invoked Setup] in
    match setup_thunk branch (world s) with
    | (Raise e, w) => (Raise e, mkState w (heap s) tr)
    | (Ok _, w) =>
        for_each (repeat (run_thunk branch) (Z.to_nat (run_count branch))) trial_cycle
                 branch (mkState w (heap s) tr)
    end.
Proof.
  intros Hge. assert (Hlt : (run_count branch <? 1)%Z = false) by (apply Z.ltb_ge; lia).
  unfold execute_run, log, call, emit, host, bind. cbn [world heap trace].
  rewrite <- app_assoc. cbn [app].
  destruct (setup_thunk branch (world s)) as [[u|e] w]; [|reflexivity].
  rewrite Hlt. reflexivity.
Qed.

End RunFacts.

(** ** The run of a branch *)

Section RunTheorems.
Context {W : Type} `{Host W}.



(** C2, as the code has it.  A real run (planned count at least one) that
    starts from an empty history only ever binds [branch.runs] to a
    history of at least one and at most the planned count of durations,
    and leaves exactly the planned count of them when it returns. *)
Theorem real_run_within_plan (branch : Run W) (s : state W) :
  1 <= run_count branch ->
  history branch s = [] ->
  exists evs,
    trace (snd (execute_run branch s)) = trace s ++ evs /\
    (forall nm l, In (RunsSet nm l) evs -> 1 <= Py.len l <= run_count branch) /\
    (forall b', fst (execute_run branch s) = Ok b' ->
                Py.len (history b' (snd (execute_run branch s))) = run_count branch).
Proof.
  intros Hge Hempty. rewrite (execute_run_real branch s Hge). cbv zeta.
  destruct (setup_thunk branch (world s)) as [[u|e] w].
  - set (s1 := mkState w (heap s) _).
    destruct (for_each_cycles (run_thunk branch) (Z.to_nat (run_count branch)) branch s1)
      as (evs & Htr & _ & Hall & _ & Hok).
    assert (Hh : history branch s1 = []) by exact Hempty.
    rewrite Hh in *. cbn [List.length] in *.
    exists ([Logged ("running " ++ name branch ++ " branch setup"); Invoked Setup] ++ evs).
    split; [|split].
    + rewrite Htr. unfold s1. cbn [trace]. rewrite <- app_assoc. reflexivity.
    + intros nm l [Hin|[Hin|Hin]]; try discriminate Hin.
      rewrite List.Forall_forall in Hall. specialize (Hall _ Hin).
      cbn in Hall. unfold Py.len. lia.
    + intros b' Hb'. destruct (Hok b' Hb') as (_ & _ & _ & Hlen).
      unfold Py.len. rewrite Hlen. lia.
  - cbn [fst snd trace]. eexists. split; [reflexivity|]. split.
    + intros nm l [Hin|[Hin|[]]]; discriminate Hin.
    + intros b' Hb'. discriminate Hb'.
Qed.

(** C8, as the code has it.  In a real run the events come in the order
    of [run_shape]: the branch-level setup, then for each trial the
    clock, the trial, the clock, the history with the new duration at its
    end, the query of the estimator, the three progress lines and, last,
    the cleanup.  A run that fails stops somewhere along that order; a
    run that returns has gone through all of it, and its passes are
    those of [cycles]. *)
Theorem real_run_event_order (branch : Run W) (s : state W) :
  1 <= run_count branch ->
  exists evs,
    trace (snd (execute_run branch s)) = trace s ++ evs /\
    map kind_of evs `prefix_of` run_shape (Z.to_nat (run_count branch)) /\
    forall b', fst (execute_run branch s) = Ok b' ->
      map kind_of evs = run_shape (Z.to_nat (run_count branch)) /\
      exists passes,
        evs = [Logged ("running " ++ name branch ++ " branch setup"); Invoked Setup]
              ++ passes /\
        cycles branch (history branch s) passes
               (history b' (snd (execute_run branch s))).
Proof.
  intros Hge. rewrite (execute_run_real branch s Hge). cbv zeta.
  destruct (setup_thunk branch (world s)) as [[u|e] w].
  - set (s1 := mkState w (heap s) _).
    destruct (for_each_cycles (run_thunk branch) (Z.to_nat (run_count branch)) branch s1)
      as (evs & Htr & [k Hk] & _ & _ & Hok).
    exists ([Logged ("running " ++ name branch ++ " branch setup"); Invoked Setup] ++ evs).
    split; [|split].
    + rewrite Htr. unfold s1. cbn [trace]. rewrite <- app_assoc. reflexivity.
    + exists k. unfold run_shape. rewrite Hk, map_app, <- app_assoc. reflexivity.
    + intros b' Hb'. destruct (Hok b' Hb') as (Hkinds & Hcy & _ & _).
      split.
      * unfold run_shape. rewrite map_app, Hkinds. reflexivity.
      * exists evs. split; [reflexivity | exact Hcy].
  - cbn [fst snd trace]. eexists. split; [reflexivity|]. split.
    + eexists. reflexivity.
    + intros b' Hb'. discriminate Hb'.
Qed.

End RunTheorems.

(** ** The estimators and the display of the time remaining *)

Section EstimatorTheorems.
Import Py PyFacts.

Lemma mean_arithmetic (h : list Q) :
  (sum h / inject_Z (len h) == arithmetic_mean h)%Q.
Proof. unfold arithmetic_mean, len. rewrite sum_fold_right. reflexivity. Qed.


Lemma ceil_truediv (a : Z) (d : positive) :
  ceil (truediv a (Z.pos d)) = ceil_div a (Z.pos d).
Proof.
  unfold ceil, truediv, ceil_div, Qceiling, Qfloor.
  cbn [inject_Z Qdiv Qinv Qmult Qnum Qden Qopp Z.opp].
  change (Qinv (inject_Z (Z.pos d))) with (1 # d)%Q.
  cbn [Qmult Qopp Qnum Qden].
  rewrite Z.mul_1_r, Pos.mul_1_l.
  pose proof (Pos2Z.is_pos d) as Hd.
  Z.to_euclidean_division_equations. nia.
Qed.

(** The quotient rounded up is the least multiple that covers. *)
Lemma ceil_div_covers (a d : Z) :
  0 < d -> a <= d * ceil_div a d < a + d.
Proof.
  intros Hd. unfold ceil_div.
  Z.to_euclidean_division_equations. nia.
Qed.


End EstimatorTheorems.

(** ** The median *)

Section MedianTheorems.
Import Py PyFacts SortFacts.

Lemma odd_mod_2 (n : nat) : Nat.eqb (n mod 2) 1 = negb (Nat.even n).
Proof.
  rewrite <- Nat.negb_odd, Bool.negb_involutive.
  destruct (Nat.odd n) eqn:E.
  - apply Nat.odd_spec in E. destruct E as [k ->].
    replace (2 * k + 1)%nat with (1 + k * 2)%nat by lia.
    rewrite Nat.Div0.mod_add. reflexivity.
  - rewrite <- Nat.negb_even in E. apply Bool.negb_false_iff, Nat.even_spec in E.
    destruct E as [k ->]. replace (2 * k)%nat with (0 + k * 2)%nat by lia.
    rewrite Nat.Div0.mod_add. reflexivity.
Qed.

(** [statistics.median] on data in ascending order. *)
Lemma median_Sorted (s : list Q) :
  s <> [] -> Sorted Qle s -> median s = Ok (conventional_median s).
Proof.
  intros Hne Hs. unfold median, conventional_median.
  rewrite (sorted_fixes_Sorted s Hs).
  destruct s as [|x s]; [congruence|]. cbn [List.length Nat.eqb].
  rewrite odd_mod_2. destruct (Nat.even (S (List.length s))); reflexivity.
Qed.

Lemma conventional_median_same_values (s k : list Q) :
  same_values s k -> (conventional_median s == conventional_median k)%Q.
Proof.
  intros Hsk. unfold conventional_median.
  rewrite (same_values_length s k Hsk).
  destruct (Nat.even (List.length k)).
  - rewrite (same_values_nth s k _ Hsk), (same_values_nth s k (List.length k / 2) Hsk).
    reflexivity.
  - apply same_values_nth. exact Hsk.
Qed.


End MedianTheorems.

(** ** The statistics lines *)

Section StatTheorems.
Context {W : Type} `{Host W}.
Import Py PyFacts SortFacts.

Lemma lt_0_true (x : Q) : (0 < x)%Q -> lt 0 x = true.
Proof.
  intros Hx. unfold lt. destruct (Qle_bool x 0) eqn:E; [|reflexivity].
  apply Qle_bool_true in E. lra.
Qed.

Lemma lt_0_false (x : Q) : (x <= 0)%Q -> lt 0 x = false.
Proof.
  intros Hx. unfold lt. apply Qle_bool_iff in Hx. rewrite Hx. reflexivity.
Qed.


(** A zero base value, however written, is a division by zero. *)
Lemma improvement_zero_base (dev : Q) (d : positive) :
  improvement (0 # d) dev = Raise ZeroDivisionError.
Proof. reflexivity. Qed.

(** [gather_output], in full: both lists end up sorted, and the lines are
    those of the sorted contents. *)
Lemma gather_output_eq (args : Args) (dev base : ref) (s : state W) (hd hb : list Q) :
  heap s !! dev = Some hd ->
  heap s !! base = Some hb ->
  gather_output args dev base s =
    (output_lines args (sorted hd) (sorted hb),
     mkState (world s) (alter sorted base (alter sorted dev (heap s))) (trace s)).
Proof.
  intros Hd Hb.
  unfold gather_output, list_sort, load, lift, bind. cbn [world heap trace].
  destruct (decide (dev = base)) as [->|Hne].
  - assert (hd = hb) by congruence. subst hb.
    rewrite !list_lookup_alter_eq, Hd. cbn. rewrite sorted_idempotent. reflexivity.
  - rewrite list_lookup_alter_ne by congruence.
    rewrite !list_lookup_alter_eq, Hd.
    rewrite list_lookup_alter_ne by congruence. rewrite Hb. reflexivity.
Qed.


End StatTheorems.

(** ** The report layout *)

Section LayoutTheorems.
Import Py.

Lemma length_append (a b : string) :
  String.length (a ++ b) = (String.length a + String.length b)%nat.
Proof. induction a as [|c a IH]; simpl; [reflexivity | rewrite IH; reflexivity]. Qed.

Lemma length_replicate (c : ascii) (n : nat) : String.length (replicate c n) = n.
Proof. induction n as [|n IH]; simpl; [reflexivity | rewrite IH; reflexivity]. Qed.

Lemma length_slice0 (s : string) (n : nat) :
  String.length (slice0 s n) = Nat.min n (String.length s).
Proof.
  unfold slice0. revert s. induction n as [|n IH]; intros s.
  - destruct s; reflexivity.
  - destruct s as [|c s]; simpl; [reflexivity | rewrite IH; reflexivity].
Qed.

Lemma fold_max_start {A} (f : A -> Z) (l : list A) (a : Z) :
  a <= fold_left (fun x y => Z.max x (f y)) l a.
Proof.
  revert a. induction l as [|y l IH]; intros a; simpl; [lia|].
  specialize (IH (Z.max a (f y))). lia.
Qed.

Lemma fold_max_In {A} (f : A -> Z) (l : list A) (a : Z) (y : A) :
  In y l -> f y <= fold_left (fun x y => Z.max x (f y)) l a.
Proof.
  revert a. induction l as [|z l IH]; intros a; simpl; [tauto|].
  intros [->|Hin].
  - pose proof (fold_max_start f l (Z.max a (f y))). lia.
  - apply IH. exact Hin.
Qed.

(** A line with a value is exactly as wide as asked, when it fits. *)
Lemma pair_to_line_value (full_width : Z) (k v : string) (f : ascii) :
  len_str k + len_str v <= full_width ->
  String.length (pair_to_line full_width (k, Some v, f)) = Z.to_nat full_width.
Proof.
  intros Hfit. unfold pair_to_line, times, len_str in *. cbn [value label fill fst snd].
  rewrite !length_append, length_replicate. lia.
Qed.

(** A line without a value is at least as wide as asked. *)
Lemma pair_to_line_none (full_width : Z) (k : string) (f : ascii) :
  (Z.to_nat full_width <= String.length (pair_to_line full_width (k, None, f)))%nat.
Proof.
  unfold pair_to_line, times. cbn [value label fill fst snd].
  rewrite (ceil_truediv _ 2).
  rewrite !length_append, length_replicate.
  unfold ceil_div, len_str.
  Z.to_euclidean_division_equations. lia.
Qed.

(** C7, as the code has it.  When the row before the last (the header
    counted) has a value, every row of the report is exactly
    [min_separation + max_key_width + max_value_width] long: the rows
    are the lines cut to the length of that row. *)
Theorem rows_equal_when_reference_row_has_value
    (kvs : list ReportLine) (k v : string) (f : ascii) :
  nth_error (header_line :: kvs) (List.length kvs - 1) = Some (k, Some v, f) ->
  let full_width :=
    Z.to_nat (min_separation + max_key_width (header_line :: kvs)
              + max_value_width (header_line :: kvs)) in
  report_lines kvs =
    map (fun line => slice0 line full_width) (untruncated_lines (header_line :: kvs)) /\
  Forall (fun row => String.length row = full_width) (report_lines kvs) /\
  rows_equal (report_lines kvs).
Proof.
  intros Href full_width.
  set (L := header_line :: kvs) in *.
  set (Wd := min_separation + max_key_width L + max_value_width L) in *.
  assert (Hfit : forall k' v' f', In (k', Some v', f') L ->
                                  len_str k' + len_str v' <= Wd).
  { intros k' v' f' Hin. unfold Wd, min_separation.
    pose proof (fold_max_In key_len_of_non_none_values L 0 _ Hin) as Hk.
    pose proof (fold_max_In (fun y => len_none_is_zero (value y)) L 0 _ Hin) as Hv.
    change (len_str k' <= max_key_width L) in Hk.
    change (len_str v' <= max_value_width L) in Hv. lia. }
  assert (Hwide : forall kv, In kv L ->
                    (full_width <= String.length (pair_to_line Wd kv))%nat).
  { intros [[k' [v'|]] f'] Hin.
    - rewrite pair_to_line_value by (apply (Hfit k' v' f'); exact Hin).
      unfold full_width. lia.
    - apply pair_to_line_none. }
  assert (Hlen : (2 <= List.length kvs)%nat).
  { destruct kvs as [|kv1 [|kv2 kvs']]; cbn in Href; try discriminate Href.
    cbn. lia. }
  assert (Hsecond : second_to_last (map String.length (untruncated_lines L)) = full_width).
  { unfold second_to_last, untruncated_lines. rewrite !length_map.
    fold Wd. change (List.length L) with (S (List.length kvs)).
    destruct (Nat.ltb_spec (S (List.length kvs)) 2) as [Hlt|_]; [lia|].
    replace (S (List.length kvs) - 2)%nat with (List.length kvs - 1)%nat by lia.
    rewrite map_map.
    rewrite (nth_error_nth _ _ 0%nat
               (x := String.length (pair_to_line Wd (k, Some v, f)))).
    - rewrite pair_to_line_value; [reflexivity|].
      apply (Hfit k v f). eapply nth_error_In. exact Href.
    - rewrite nth_error_map, Href. reflexivity. }
  assert (Heq : report_lines kvs =
                map (fun line => slice0 line full_width) (untruncated_lines L)).
  { unfold report_lines. cbv zeta. fold L. rewrite Hsecond. reflexivity. }
  assert (Hall : Forall (fun row => String.length row = full_width) (report_lines kvs)).
  { rewrite Heq. unfold untruncated_lines. fold Wd. rewrite map_map.
    apply List.Forall_forall. intros row Hrow.
    apply in_map_iff in Hrow. destruct Hrow as (kv & <- & Hin).
    rewrite length_slice0. specialize (Hwide kv Hin). lia. }
  split; [exact Heq|]. split; [exact Hall|].
  intros r1 r2 H1 H2. rewrite List.Forall_forall in Hall.
  rewrite (Hall r1 H1), (Hall r2 H2). reflexivity.
Qed.

End LayoutTheorems.

(** ** The theorems at work on the small host *)

Section Instances.
Import Py.



(** The same seen from [main]: the third trial of the dev branch leaves
    the history [[3; 1; 2]], and the raw runs printed at the end are sorted. *)
Lemma main_prints_sorted_runs :
  let s := snd (main Toy.args (Toy.start [3; 1; 2; 2; 1; 3 # 2]%Q)) in
  In (RunsSet "dev" [3; 1; 2]%Q) (trace s) /\
  In (Printed "raw dev_runs:  [1.0, 2.0, 3.0]") (trace s).
Proof.
  vm_compute. split; repeat (first [left; reflexivity | right]).
Qed.

(** C2 as stated fails: with no planned trial the history has ten entries. *)
Lemma dry_run_exceeds_plan :
  exists b',
    fst (execute_run (Toy.base_branch 0) (Toy.fresh [])) = Ok b' /\
    run_count b' = 0 /\
    len (history b' (snd (execute_run (Toy.base_branch 0) (Toy.fresh [])))) = 10 /\
    ~ (len (history b' (snd (execute_run (Toy.base_branch 0) (Toy.fresh []))))
         <= run_count b').
Proof.
  eexists. split; [reflexivity|]. split; [reflexivity|]. split; [reflexivity|].
  cbv. intros E. apply E. reflexivity.
Qed.

(** C2 at work: two planned trials, taking 2 and 5 seconds. *)
Lemma real_run_within_plan_witness :
  exists evs,
    trace (snd (execute_run (Toy.base_branch 2) (Toy.fresh [2; 5]%Q))) =
      trace (Toy.fresh [2; 5]%Q) ++ evs /\
    (forall nm l, In (RunsSet nm l) evs -> 1 <= len l <= 2) /\
    (forall b', fst (execute_run (Toy.base_branch 2) (Toy.fresh [2; 5]%Q)) = Ok b' ->
       len (history b' (snd (execute_run (Toy.base_branch 2) (Toy.fresh [2; 5]%Q)))) = 2).
Proof.
  apply (real_run_within_plan (Toy.base_branch 2) (Toy.fresh [2; 5]%Q)).
  - cbn. lia.
  - reflexivity.
Defined.



(** C8 as stated fails: in a run of one trial the events do not occur
    in the specified order, the cleanup being called after the estimator
    and the progress lines. *)
Lemma cleanup_comes_last :
  is_ok (fst (execute_run (Toy.base_branch 1) (Toy.fresh [2]%Q))) = true /\
  occur_in_order specified_cycle_order
    (trace (snd (execute_run (Toy.base_branch 1) (Toy.fresh [2]%Q)))) = false /\
  occur_in_order [KInvoked Trial; KRunsSet; KEstimated; KLogged; KInvoked Cleanup]
    (trace (snd (execute_run (Toy.base_branch 1) (Toy.fresh [2]%Q)))) = true.
Proof. vm_compute. repeat split. Qed.

(** C8 at work on that run. *)
Lemma real_run_event_order_witness :
  exists evs,
    trace (snd (execute_run (Toy.base_branch 1) (Toy.fresh [2]%Q))) = evs /\
    map kind_of evs `prefix_of` run_shape 1.
Proof.
  destruct (real_run_event_order (Toy.base_branch 1) (Toy.fresh [2]%Q))
    as (evs & Htrace & Hprefix & _).
  - cbn. lia.
  - exists evs. split; [exact Htrace | exact Hprefix].
Defined.




(** An improvement that is positive and rounds to zero is reported as a
    degradation. *)
Example small_improvement_reported_degraded :
  (exists p, improvement 100000 99999 = Ok p /\ (0 < p)%Q) /\
  get_stat "mean" 99999 100000 =
    Ok [ ("mean dev", Some "99999.0", "."%char); ("mean base", Some "100000.0", "."%char);
         ("DEGRADED BY", Some "0.0 %", "."%char); ("", None, " "%char) ].
Proof.
  split; [|reflexivity].
  eexists. split; reflexivity.
Qed.

(** The scenario of two branches with histories [[4.0, 6.0]] and
    [[5.0, 5.0]]: means and medians are [5.0], the improvement is [0.0]. *)
Example equal_branches_report :
  output_lines Toy.args [4; 6]%Q [5; 5]%Q =
    Ok [ ("command", Some "dbt parse", "."%char);
         ("dev branch", Some "dbt/feature", "."%char);
         ("base branch", Some "dbt/develop", "."%char);
         ("", None, " "%char);
         ("time measured in seconds", None, " "%char);
         ("", None, " "%char);
         ("mean dev", Some "5.0", "."%char); ("mean base", Some "5.0", "."%char);
         ("DEGRADED BY", Some "0.0 %", "."%char); ("", None, " "%char);
         ("median dev", Some "5.0", "."%char); ("median base", Some "5.0", "."%char);
         ("DEGRADED BY", Some "0.0 %", "."%char); ("", None, " "%char) ].
Proof. reflexivity. Qed.

(** A trial that fails aborts the run at once: the failure is the result
    of the run, the trial is not called again and no cleanup follows. *)
Example failed_trial_aborts_run :
  fst (execute_run (Toy.base_branch 3) (Toy.fresh [2]%Q)) = Raise (HostError "dbt parse") /\
  invocations Trial (trace (snd (execute_run (Toy.base_branch 3) (Toy.fresh [2]%Q)))) = 2%nat /\
  invocations Cleanup (trace (snd (execute_run (Toy.base_branch 3) (Toy.fresh [2]%Q)))) = 1%nat /\
  last (trace (snd (execute_run (Toy.base_branch 3) (Toy.fresh [2]%Q)))) =
    Some (Invoked Trial).
Proof. vm_compute. repeat split. Qed.

(** C7 as stated fails: one line with a value, and the two rows of the
    report are 19 and 8 long. *)
Lemma single_line_rows_differ :
  valid_input [("a", Some "b", "."%char)] = true /\
  report_lines [("a", Some "b", "."%char)] = ["  Benchmark stats  "; "a......b"] /\
  ~ rows_equal (report_lines [("a", Some "b", "."%char)]).
Proof.
  split; [reflexivity|]. split; [reflexivity|].
  intros Hrows.
  specialize (Hrows "  Benchmark stats  " "a......b").
  cbn in Hrows. discriminate Hrows; auto.
Qed.

(** C7 at work: a statistics line followed by a separator. *)
Lemma rows_equal_witness :
  report_lines [("mean dev", Some "5.0", "."%char); ("", None, " "%char)] =
    ["  Benchmark stats"; "mean dev......5.0"; "                 "] /\
  rows_equal (report_lines [("mean dev", Some "5.0", "."%char); ("", None, " "%char)]).
Proof.
  destruct (rows_equal_when_reference_row_has_value
              [("mean dev", Some "5.0", "."%char); ("", None, " "%char)]
              "mean dev" "5.0" "."%char eq_refl) as (_ & _ & Hrows).
  split; [reflexivity | exact Hrows].
Defined.


End Instances.

(** ** More on the run of a branch *)

Section RunInvariants.
Context {W : Type} `{Host W}.

Lemma invocations_app (c : callback) (evs evs' : list event) :
  invocations c (evs ++ evs') = (invocations c evs + invocations c evs')%nat.
Proof.
  induction evs as [|e evs IH]; [reflexivity|].
  destruct e; cbn [app invocations]; rewrite IH; lia.
Qed.

(** What the loop keeps, however it ends: list objects that exist are left
    alone, the trial is called at most [n] times, the cleanup only after a
    trial, the estimator only on a history that is not empty. *)
Lemma for_each_invariants (thunk : action W) (n : nat) (branch : Run W) (s : state W) :
  heap s `prefix_of` heap (snd (for_each (repeat thunk n) trial_cycle branch s)) /\
  exists evs,
    trace (snd (for_each (repeat thunk n) trial_cycle branch s)) = trace s ++ evs /\
    invocations Setup evs = 0%nat /\
    (invocations Trial evs <= n)%nat /\
    (invocations Cleanup evs <= invocations Trial evs <= S (invocations Cleanup evs))%nat /\
    Forall (estimated_on (run_count branch)) evs /\
    (is_ok (fst (for_each (repeat thunk n) trial_cycle branch s)) = true ->
     invocations Trial evs = n /\ invocations Cleanup evs = n).
Proof.
  revert branch s. induction n as [|n IH]; intros branch s.
  - cbn [repeat for_each]. unfold ret. cbn [fst snd]. split; [reflexivity|].
    exists []. rewrite app_nil_r. cbn. repeat split; try lia. constructor.
  - assert (Hstep : for_each (repeat thunk (S n)) trial_cycle branch s =
                      match trial_cycle thunk branch s with
                      | (Ok b', s') => for_each (repeat thunk n) trial_cycle b' s'
                      | (Raise e, s') => (Raise e, s')
                      end) by reflexivity.
    rewrite Hstep. clear Hstep. rewrite trial_cycle_eq. cbv zeta.
    set (l := history branch s). set (t0 := perf_counter (world s)).
    destruct (thunk (world s)) as [[u|e] w1].
    2:{ cbn [fst snd heap trace is_ok]. split; [reflexivity|].
        exists (cycle_head branch l t0). cbn.
        repeat split; try lia; try discriminate. repeat constructor. }
    set (t1 := perf_counter w1). set (run := Py.round (t1 - t0) 3).
    assert (Hne : l ++ [run] <> []) by (destruct l; discriminate).
    destruct (time_remaining branch (l ++ [run]) (run_count branch)) as [remaining|e].
    2:{ cbn [fst snd heap trace is_ok]. split; [eexists; reflexivity|].
        exists (cycle_head branch l t0 ++ cycle_middle branch (l ++ [run]) t1).
        rewrite <- app_assoc. cbn.
        repeat split; try lia; try discriminate. repeat constructor; assumption. }
    destruct (cleanup_thunk branch w1) as [[u'|e] w2].
    2:{ cbn [fst snd heap trace is_ok]. split; [eexists; reflexivity|].
        exists (cycle_events branch l t0 t1 remaining).
        unfold cycle_events. fold run. rewrite <- !app_assoc. cbn.
        repeat split; try lia; try discriminate. repeat constructor; assumption. }
    set (b1 := with_runs branch (List.length (heap s))).
    set (s1 := mkState w2 _ _).
    destruct (IH b1 s1) as ([k Hk] & evs & Htr & Hsetup & Htrial & Hclean & Hest & Hok).
    split.
    + exists ([l ++ [run]] ++ k). rewrite Hk. unfold s1. cbn [heap].
      rewrite <- app_assoc. reflexivity.
    + exists (cycle_events branch l t0 t1 remaining ++ evs).
      rewrite !invocations_app.
      assert (Hc : invocations Setup (cycle_events branch l t0 t1 remaining) = 0%nat /\
                   invocations Trial (cycle_events branch l t0 t1 remaining) = 1%nat /\
                   invocations Cleanup (cycle_events branch l t0 t1 remaining) = 1%nat)
        by (repeat split; reflexivity).
      destruct Hc as (-> & -> & ->).
      split; [|split; [|split; [|split; [|split]]]]; try lia.
      * rewrite Htr. unfold s1. cbn [trace]. unfold cycle_events. fold run.
        rewrite <- !app_assoc. reflexivity.
      * apply Forall_app. split; [|exact Hest].
        unfold cycle_events. fold run. repeat constructor; assumption.
      * intros Hret. specialize (Hok Hret). lia.
Qed.

(** X1.  Running a branch leaves every list object that exists alone: it
    only makes new ones.  The history of the other branch is as it was. *)
Theorem execute_run_keeps_other_histories (branch : Run W) (s : state W) :
  heap s `prefix_of` heap (snd (execute_run branch s)) /\
  forall r l, heap s !! r = Some l -> heap (snd (execute_run branch s)) !! r = Some l.
Proof.
  assert (Hpre : heap s `prefix_of` heap (snd (execute_run branch s))).
  { destruct (Z.lt_ge_cases (run_count branch) 1) as [Hlt|Hge].
    - rewrite (execute_run_dry branch s Hlt). cbv zeta.
      destruct (setup_thunk branch (world s)) as [[u|e] w]; cbn [snd heap].
      + eexists. reflexivity.
      + reflexivity.
    - rewrite (execute_run_real branch s Hge). cbv zeta.
      destruct (setup_thunk branch (world s)) as [[u|e] w]; cbn [snd heap].
      + apply (for_each_invariants (run_thunk branch) _ branch (mkState w (heap s) _)).
      + reflexivity. }
  split; [exact Hpre|].
  intros r l Hr. destruct Hpre as [k ->]. apply lookup_app_l_Some. exact Hr.
Qed.

(** X2.  Every run calls the branch-level setup exactly once.  A run with a
    planned count of [n] calls the trial at most [n] times (never, when [n]
    is below one) and the cleanup only after a trial, so at most as often
    and at least once less; a run that returns has called each exactly [n]
    times. *)
Theorem run_callback_counts (branch : Run W) (s : state W) :
  exists evs,
    trace (snd (execute_run branch s)) = trace s ++ evs /\
    invocations Setup evs = 1%nat /\
    (invocations Trial evs <= Z.to_nat (run_count branch))%nat /\
    (invocations Cleanup evs <= invocations Trial evs <= S (invocations Cleanup evs))%nat /\
    (is_ok (fst (execute_run branch s)) = true ->
     invocations Trial evs = Z.to_nat (run_count branch) /\
     invocations Cleanup evs = Z.to_nat (run_count branch)).
Proof.
  destruct (Z.lt_ge_cases (run_count branch) 1) as [Hlt|Hge].
  - rewrite (execute_run_dry branch s Hlt). cbv zeta.
    replace (Z.to_nat (run_count branch)) with 0%nat by lia.
    destruct (setup_thunk branch (world s)) as [[u|e] w]; cbn [fst snd trace].
    + eexists. rewrite <- app_assoc. split; [reflexivity|]. cbn. repeat split; lia.
    + eexists. split; [reflexivity|]. cbn. repeat split; try lia; discriminate.
  - rewrite (execute_run_real branch s Hge). cbv zeta.
    destruct (setup_thunk branch (world s)) as [[u|e] w].
    + set (s1 := mkState w (heap s) _).
      destruct (for_each_invariants (run_thunk branch) (Z.to_nat (run_count branch))
                  branch s1) as (_ & evs & Htr & Hsetup & Htrial & Hclean & _ & Hok).
      exists ([Logged ("running " ++ name branch ++ " branch setup"); Invoked Setup] ++ evs).
      rewrite !invocations_app. cbn [invocations callback_eqb].
      split; [|split; [|split; [|split]]]; try lia.
      * rewrite Htr. unfold s1. cbn [trace]. rewrite <- app_assoc. reflexivity.
      * intros Hret. specialize (Hok Hret). lia.
    + cbn [fst snd trace]. eexists. split; [reflexivity|]. cbn.
      repeat split; try lia; discriminate.
Qed.

End RunInvariants.

(** ** Rounding, timing and failures *)

Section TimingTheorems.
Context {W : Type} `{Host W}.
Import Py PyFacts.

Lemma round_half_even_nonneg (x : Q) : (0 <= x)%Q -> 0 <= round_half_even x.
Proof.
  intros Hx. unfold round_half_even.
  assert (Hf : 0 <= Qfloor x).
  { change 0 with (Qfloor 0). apply Qfloor_resp_le. exact Hx. }
  destruct (Qcompare _ _); [destruct (Z.even _)| |]; lia.
Qed.

Lemma round_value (x : Q) (ndigits : nat) :
  (round x ndigits ==
   inject_Z (round_half_even (x * inject_Z (Z.pos (pow10 ndigits))))
   / inject_Z (Z.pos (pow10 ndigits)))%Q.
Proof.
  unfold round. rewrite Qred_correct. rewrite Qmake_Qdiv. reflexivity.
Qed.

Lemma round_nonneg (x : Q) (ndigits : nat) : (0 <= x)%Q -> (0 <= round x ndigits)%Q.
Proof.
  intros Hx. unfold round. rewrite Qred_correct.
  assert (Hz : 0 <= round_half_even (x * inject_Z (Z.pos (pow10 ndigits)))).
  { apply round_half_even_nonneg. apply Qmult_le_0_compat; [exact Hx|].
    unfold Qle. cbn. lia. }
  unfold Qle. cbn. lia.
Qed.

(** [round(x, 3)] is within half a thousandth of [x]. *)
Lemma round_3_accuracy (x : Q) : (Qabs (round x 3 - x) <= 1 # 2000)%Q.
Proof.
  pose proof (round_half_even_nearest (x * inject_Z (Z.pos (pow10 3)))) as Hn.
  rewrite (round_value x 3).
  set (z := round_half_even (x * inject_Z (Z.pos (pow10 3)))) in *.
  change (inject_Z (Z.pos (pow10 3))) with 1000%Q in *.
  apply Qabs_Qle_condition in Hn. apply Qabs_Qle_condition.
  destruct Hn as [Hlo Hhi].
  split.
  - assert (E : (inject_Z z / 1000 - x == (inject_Z z - x * 1000) / 1000)%Q) by field.
    rewrite E. apply Qle_shift_div_l; [reflexivity|]. lra.
  - assert (E : (inject_Z z / 1000 - x == (inject_Z z - x * 1000) / 1000)%Q) by field.
    rewrite E. apply Qle_shift_div_r; [reflexivity|]. lra.
Qed.


End TimingTheorems.

(** ** Failures and returns of a run *)

Section RunOutcomes.
Context {W : Type} `{Host W}.
Import Py PyFacts.

(** X4.  A branch-level setup that fails aborts the run at once, whatever
    the planned count: the failure is the result of the run, the world is
    left as the setup left it, no list object is made, and nothing follows
    the call of the setup: no trial, no cleanup, no history. *)
Theorem setup_failure_aborts_run (branch : Run W) (s : state W) (e : exn) (w : W) :
  setup_thunk branch (world s) = (Raise e, w) ->
  execute_run branch s =
    (Raise e,
     mkState w (heap s)
             (trace s ++ [Logged ("running " ++ name branch ++ " branch setup");
                          Invoked Setup])).
Proof.
  intros Hsetup.
  destruct (Z.lt_ge_cases (run_count branch) 1) as [Hlt|Hge].
  - rewrite (execute_run_dry branch s Hlt). cbv zeta. rewrite Hsetup. reflexivity.
  - rewrite (execute_run_real branch s Hge). cbv zeta. rewrite Hsetup. reflexivity.
Qed.

(** X5.  In a real run, a first trial that fails aborts the run: the
    failure is the result, the trial is not called again, no duration is
    recorded, the estimator is not asked and the cleanup is not called. *)
Theorem trial_failure_aborts_run
    (branch : Run W) (s : state W) (u : unit) (w w' : W) (e : exn) :
  1 <= run_count branch ->
  setup_thunk branch (world s) = (Ok u, w) ->
  run_thunk branch w = (Raise e, w') ->
  execute_run branch s =
    (Raise e,
     mkState w' (heap s)
             (trace s ++ [Logged ("running " ++ name branch ++ " branch setup");
                          Invoked Setup] ++
              cycle_head branch (history branch s) (perf_counter w))).
Proof.
  intros Hge Hsetup Htrial.
  rewrite (execute_run_real branch s Hge). cbv zeta. rewrite Hsetup.
  destruct (Z.to_nat (run_count branch)) as [|n] eqn:En; [lia|].
  assert (Hstep : forall b st,
            for_each (repeat (run_thunk branch) (S n)) trial_cycle b st =
              match trial_cycle (run_thunk branch) b st with
              | (Ok b', s') => for_each (repeat (run_thunk branch) n) trial_cycle b' s'
              | (Raise e, s') => (Raise e, s')
              end) by reflexivity.
  rewrite Hstep, trial_cycle_eq. cbv zeta. cbn [world heap trace].
  rewrite Htrial. rewrite <- app_assoc. reflexivity.
Qed.

(** The loop returns when neither the trial, the estimator nor the cleanup
    fails. *)
Lemma for_each_returns (thunk : action W) (n : nat) (branch : Run W) (s : state W) :
  (forall w, is_ok (fst (thunk w)) = true) ->
  (forall w, is_ok (fst (cleanup_thunk branch w)) = true) ->
  (forall l, l <> [] -> is_ok (time_remaining branch l (run_count branch)) = true) ->
  is_ok (fst (for_each (repeat thunk n) trial_cycle branch s)) = true.
Proof.
  intros Htrial Hcleanup Hest. revert branch s Hcleanup Hest.
  induction n as [|n IH]; intros branch s Hcleanup Hest; [reflexivity|].
  assert (Hstep : for_each (repeat thunk (S n)) trial_cycle branch s =
                    match trial_cycle thunk branch s with
                    | (Ok b', s') => for_each (repeat thunk n) trial_cycle b' s'
                    | (Raise e, s') => (Raise e, s')
                    end) by reflexivity.
  rewrite Hstep. clear Hstep. rewrite trial_cycle_eq. cbv zeta.
  specialize (Htrial (world s)).
  destruct (thunk (world s)) as [[u|e] w1]; [|discriminate Htrial].
  set (l' := history branch s ++ _).
  assert (Hne : l' <> []) by (unfold l'; destruct (history branch s); discriminate).
  specialize (Hest l' Hne) as Hest'.
  destruct (time_remaining branch l' (run_count branch)) as [remaining|e];
    [|discriminate Hest'].
  specialize (Hcleanup w1) as Hcleanup'.
  destruct (cleanup_thunk branch w1) as [[u'|e] w2]; [|discriminate Hcleanup'].
  apply IH; assumption.
Qed.

Lemma base_time_remaining_defined (l : list Q) (n : Z) :
  l <> [] -> is_ok (base_time_remaining l n) = true.
Proof. intros Hne. unfold base_time_remaining. rewrite (mean_nonempty l Hne). reflexivity. Qed.

Lemma dev_time_remaining_defined (l : list Q) (n : Z) :
  l <> [] -> is_ok (dev_time_remaining l n) = true.
Proof. intros Hne. unfold dev_time_remaining. rewrite (mean_nonempty l Hne). reflexivity. Qed.

(** X6.  A run fails only through its callbacks: with one of the two
    estimators of [main], a branch whose setup, trial and cleanup cannot
    fail always returns, whatever its planned count and wherever it starts. *)
Theorem run_returns_when_callbacks_succeed (branch : Run W) (s : state W) :
  (forall w, is_ok (fst (setup_thunk branch w)) = true) ->
  (forall w, is_ok (fst (run_thunk branch w)) = true) ->
  (forall w, is_ok (fst (cleanup_thunk branch w)) = true) ->
  time_remaining branch = base_time_remaining \/
  time_remaining branch = dev_time_remaining ->
  is_ok (fst (execute_run branch s)) = true.
Proof.
  intros Hsetup Htrial Hcleanup Hest.
  specialize (Hsetup (world s)).
  destruct (Z.lt_ge_cases (run_count branch) 1) as [Hlt|Hge].
  - rewrite (execute_run_dry branch s Hlt). cbv zeta.
    destruct (setup_thunk branch (world s)) as [[u|e] w]; [reflexivity | discriminate Hsetup].
  - rewrite (execute_run_real branch s Hge). cbv zeta.
    destruct (setup_thunk branch (world s)) as [[u|e] w]; [|discriminate Hsetup].
    apply for_each_returns; try assumption.
    intros l Hne. destruct Hest as [-> | ->].
    + apply base_time_remaining_defined. exact Hne.
    + apply dev_time_remaining_defined. exact Hne.
Qed.

(** The durations that the loop records are not negative when the clock
    does not go backwards while the trial runs. *)
Lemma for_each_durations (thunk : action W) (n : nat) (branch : Run W) (s : state W) :
  (forall w u w', thunk w = (Ok u, w') -> (perf_counter w <= perf_counter w')%Q) ->
  forall b', fst (for_each (repeat thunk n) trial_cycle branch s) = Ok b' ->
    exists durations,
      history b' (snd (for_each (repeat thunk n) trial_cycle branch s)) =
        history branch s ++ durations /\
      List.length durations = n /\
      Forall (fun d => (0 <= d)%Q) durations.
Proof.
  intros Hclock. revert branch s. induction n as [|n IH]; intros branch s b'.
  - cbn [repeat for_each]. unfold ret. cbn [fst snd]. intros Hb'. injection Hb' as <-.
    exists []. rewrite app_nil_r. repeat split. constructor.
  - assert (Hstep : for_each (repeat thunk (S n)) trial_cycle branch s =
                      match trial_cycle thunk branch s with
                      | (Ok b', s') => for_each (repeat thunk n) trial_cycle b' s'
                      | (Raise e, s') => (Raise e, s')
                      end) by reflexivity.
    rewrite Hstep. clear Hstep. rewrite trial_cycle_eq. cbv zeta.
    destruct (thunk (world s)) as [[u|e] w1] eqn:Hthunk; [|discriminate].
    set (run := round (perf_counter w1 - perf_counter (world s)) 3).
    destruct (time_remaining branch _ (run_count branch)) as [remaining|e]; [|discriminate].
    destruct (cleanup_thunk branch w1) as [[u'|e] w2]; [|discriminate].
    set (b1 := with_runs branch (List.length (heap s))).
    set (s1 := mkState w2 _ _).
    intros Hb'. destruct (IH b1 s1 b' Hb') as (durations & Hh & Hlen & Hall).
    assert (Hh1 : history b1 s1 = history branch s ++ [run]) by apply history_alloc.
    rewrite Hh1 in Hh.
    exists (run :: durations). split; [|split].
    + rewrite Hh, <- app_assoc. reflexivity.
    + cbn. lia.
    + constructor; [|exact Hall].
      apply round_nonneg. specialize (Hclock _ _ _ Hthunk). lra.
Qed.

(** X7.  When the clock does not go backwards while the trial runs, a run
    that returns has added to the history exactly the planned count of
    durations, at its end, and none of them is negative. *)
Theorem recorded_durations_nonnegative (branch : Run W) (s : state W) (b' : Run W) :
  1 <= run_count branch ->
  (forall w u w', run_thunk branch w = (Ok u, w') ->
                  (perf_counter w <= perf_counter w')%Q) ->
  fst (execute_run branch s) = Ok b' ->
  exists durations,
    history b' (snd (execute_run branch s)) = history branch s ++ durations /\
    len durations = run_count branch /\
    Forall (fun d => (0 <= d)%Q) durations.
Proof.
  intros Hge Hclock. rewrite (execute_run_real branch s Hge). cbv zeta.
  destruct (setup_thunk branch (world s)) as [[u|e] w]; [|discriminate].
  intros Hb'.
  destruct (for_each_durations (run_thunk branch) (Z.to_nat (run_count branch)) branch
              (mkState w (heap s) _) Hclock b' Hb') as (durations & Hh & Hlen & Hall).
  exists durations. split; [exact Hh|]. split; [unfold len; lia | exact Hall].
Qed.

(** X8.  In any run the estimator is only ever asked about a history that
    is not empty, with the planned count of the branch. *)
Theorem estimator_asked_on_nonempty_history (branch : Run W) (s : state W) :
  exists evs,
    trace (snd (execute_run branch s)) = trace s ++ evs /\
    forall l n, In (Estimated l n) evs -> l <> [] /\ n = run_count branch.
Proof.
  destruct (Z.lt_ge_cases (run_count branch) 1) as [Hlt|Hge].
  - rewrite (execute_run_dry branch s Hlt). cbv zeta.
    destruct (setup_thunk branch (world s)) as [[u|e] w]; cbn [snd trace].
    + eexists. rewrite <- app_assoc. split; [reflexivity|].
      intros l n Hin. cbn in Hin. intuition discriminate.
    + eexists. split; [reflexivity|].
      intros l n Hin. cbn in Hin. intuition discriminate.
  - rewrite (execute_run_real branch s Hge). cbv zeta.
    destruct (setup_thunk branch (world s)) as [[u|e] w].
    + set (s1 := mkState w (heap s) _).
      destruct (for_each_invariants (run_thunk branch) (Z.to_nat (run_count branch))
                  branch s1) as (_ & evs & Htr & _ & _ & _ & Hest & _).
      exists ([Logged ("running " ++ name branch ++ " branch setup"); Invoked Setup] ++ evs).
      split.
      * rewrite Htr. unfold s1. cbn [trace]. rewrite <- app_assoc. reflexivity.
      * intros l n [Hin|[Hin|Hin]]; try discriminate Hin.
        rewrite List.Forall_forall in Hest. apply (Hest _ Hin).
    + cbn [snd trace]. eexists. split; [reflexivity|].
      intros l n Hin. cbn in Hin. intuition discriminate.
Qed.

End RunOutcomes.

(** ** More on the estimators *)

Section EstimatorFacts.
Import Py PyFacts.

Lemma round_half_even_inject_Z (z : Z) : round_half_even (inject_Z z) = z.
Proof.
  unfold round_half_even. rewrite Qfloor_Z.
  destruct (Qcompare_spec (inject_Z z - inject_Z z) (1 # 2)) as [E|E|E];
    [exfalso; lra | reflexivity | exfalso; lra].
Qed.

Lemma sum_nonneg (l : list Q) :
  Forall (fun d => (0 <= d)%Q) l -> (0 <= fold_right Qplus 0 l)%Q.
Proof.
  induction 1 as [|d l Hd _ IH]; cbn; [discriminate | lra].
Qed.

Lemma arithmetic_mean_nonneg (l : list Q) :
  Forall (fun d => (0 <= d)%Q) l -> (0 <= arithmetic_mean l)%Q.
Proof.
  intros Hall. unfold arithmetic_mean.
  destruct l as [|d l]; [discriminate|].
  apply Qle_shift_div_l.
  - unfold Qlt. cbn. lia.
  - rewrite Qmult_0_l. apply sum_nonneg. exact Hall.
Qed.


(** X10.  On a history of durations that are not negative and no longer
    than planned, neither estimator returns a negative number of seconds. *)
Theorem estimators_nonnegative (l : list Q) (n : Z) :
  l <> [] ->
  Forall (fun d => (0 <= d)%Q) l ->
  len l <= n ->
  exists linear double,
    base_time_remaining l n = Ok linear /\ dev_time_remaining l n = Ok double /\
    0 <= linear /\ 0 <= double.
Proof.
  intros Hne Hall Hlen. unfold base_time_remaining, dev_time_remaining.
  rewrite (mean_nonempty l Hne). cbn [and_then]. rewrite !int_round_0.
  pose proof (arithmetic_mean_nonneg l Hall) as Hmean.
  rewrite <- (mean_arithmetic l) in Hmean.
  assert (Hlen0 : 0 <= len l) by (unfold len; lia).
  eexists _, _. split; [reflexivity|]. split; [reflexivity|].
  split; apply round_half_even_nonneg; apply Qmult_le_0_compat; try exact Hmean;
    unfold Qle; cbn; lia.
Qed.

End EstimatorFacts.

(** ** More on the statistics lines *)

Section StatFacts.
Context {W : Type} `{Host W}.
Import Py PyFacts SortFacts.

Lemma sum_Permutation (l l' : list Q) :
  Permutation l l' -> (fold_right Qplus 0 l == fold_right Qplus 0 l')%Q.
Proof.
  induction 1 as [|x l l' _ IH|x y l|l l' l'' _ IH1 _ IH2]; cbn.
  - reflexivity.
  - rewrite IH. reflexivity.
  - ring.
  - rewrite IH1. exact IH2.
Qed.

Lemma rounded_mean_Permutation (l l' : list Q) :
  Permutation l l' -> rounded (mean l) = rounded (mean l').
Proof.
  intros Hp. destruct l as [|x l].
  - apply Permutation_nil in Hp. subst l'. reflexivity.
  - destruct l' as [|x' l'].
    + symmetry in Hp. apply Permutation_nil in Hp. discriminate Hp.
    + cbn [mean rounded and_then]. f_equal. apply round_Qeq.
      rewrite !mean_arithmetic. unfold arithmetic_mean.
      rewrite (sum_Permutation _ _ Hp), (Permutation_length Hp). reflexivity.
Qed.

Lemma median_nonempty (l : list Q) :
  l <> [] -> median l = Ok (conventional_median (sorted l)).
Proof.
  intros Hne. unfold median, conventional_median.
  destruct (sorted l) as [|x s] eqn:E.
  - exfalso. apply Hne. apply Permutation_nil. rewrite <- E. apply sorted_perm.
  - cbn [List.length Nat.eqb]. rewrite odd_mod_2.
    destruct (Nat.even (S (List.length s))); reflexivity.
Qed.

Lemma rounded_median_Permutation (l l' : list Q) :
  Permutation l l' -> rounded (median l) = rounded (median l').
Proof.
  intros Hp. destruct l as [|x l].
  - apply Permutation_nil in Hp. subst l'. reflexivity.
  - destruct l' as [|x' l'].
    + symmetry in Hp. apply Permutation_nil in Hp. discriminate Hp.
    + rewrite !median_nonempty by discriminate. cbn [rounded and_then].
      f_equal. apply round_Qeq.
      apply conventional_median_same_values, sorted_Permutation. exact Hp.
Qed.

Lemma output_lines_rounded (args : Args) (dev base : list Q) :
  output_lines args dev base =
    let lines := [ ("command", Some "dbt parse", "."%char);
                   ("dev branch", Some ("dbt/" ++ args_dev args)%string, "."%char);
                   ("base branch", Some ("dbt/" ++ args_base args)%string, "."%char);
                   ("", None, " "%char);
                   ("time measured in seconds", None, " "%char);
                   ("", None, " "%char) ] in
    let? mean_dev := rounded (mean dev) in
    let? mean_base := rounded (mean base) in
    let? mean_lines := get_stat "mean" mean_dev mean_base in
    let? median_dev := rounded (median dev) in
    let? median_base := rounded (median base) in
    let? median_lines := get_stat "median" median_dev median_base in
    Ok (lines ++ mean_lines ++ median_lines).
Proof.
  unfold output_lines, rounded.
  destruct (mean dev); [|reflexivity]. cbn [and_then].
  destruct (mean base); [|reflexivity]. cbn [and_then].
  destruct (get_stat "mean" _ _); [|reflexivity]. cbn [and_then].
  destruct (median dev); [|reflexivity]. cbn [and_then].
  destruct (median base); reflexivity.
Qed.

(** X11.  The statistics lines, or the exception raised in their place,
    depend only on which durations each history holds, not on their
    order: the in-place sort of [gather_output] changes nothing in them. *)
Theorem statistics_ignore_order (args : Args) (dev dev' base base' : list Q) :
  Permutation dev dev' ->
  Permutation base base' ->
  output_lines args dev base = output_lines args dev' base' /\
  output_lines args (sorted dev) (sorted base) = output_lines args dev base.
Proof.
  assert (Hgen : forall d d' b b', Permutation d d' -> Permutation b b' ->
                   output_lines args d b = output_lines args d' b').
  { intros d d' b b' Hd Hb. rewrite !output_lines_rounded. cbv zeta.
    rewrite (rounded_mean_Permutation d d' Hd), (rounded_mean_Permutation b b' Hb).
    rewrite (rounded_median_Permutation d d' Hd), (rounded_median_Permutation b b' Hb).
    reflexivity. }
  intros Hdev Hbase. split.
  - apply Hgen; assumption.
  - apply Hgen; apply sorted_perm.
Qed.

Lemma get_stat_length (name : string) (dev base : Q) (lines : list ReportLine) :
  get_stat name dev base = Ok lines -> List.length lines = 4%nat.
Proof.
  unfold get_stat. destruct (improvement base dev); [|discriminate].
  cbn [and_then]. destruct (lt 0 _); intros E; injection E as <-; reflexivity.
Qed.

Lemma get_stat_outcome (name : string) (dev base : Q) :
  ((base == 0)%Q -> get_stat name dev base = Raise ZeroDivisionError) /\
  (~ (base == 0)%Q -> exists lines, get_stat name dev base = Ok lines).
Proof.
  unfold get_stat, improvement. split; intros Hb.
  - apply Qeq_bool_iff in Hb. rewrite Hb. reflexivity.
  - destruct (Qeq_bool base 0) eqn:E.
    + apply Qeq_bool_iff in E. contradiction.
    + cbn [and_then]. destruct (lt 0 _); eexists; reflexivity.
Qed.


End StatFacts.

(** ** More on the report layout *)

Section LayoutFacts.
Context {W : Type} `{Host W}.
Import Py.

Lemma slice0_all (s : string) (n : nat) : (String.length s <= n)%nat -> slice0 s n = s.
Proof.
  unfold slice0. revert n. induction s as [|c s IH]; intros n Hn.
  - destruct n; reflexivity.
  - destruct n as [|n]; cbn in *; [lia|]. rewrite IH by lia. reflexivity.
Qed.

Lemma slice0_append (a b : string) (n : nat) :
  (String.length a <= n)%nat ->
  slice0 (a ++ b) n = (a ++ slice0 b (n - String.length a))%string.
Proof.
  unfold slice0. revert n. induction a as [|c a IH]; intros n Hn.
  - cbn. rewrite Nat.sub_0_r. reflexivity.
  - destruct n as [|n]; cbn in *; [lia|]. rewrite IH by lia. reflexivity.
Qed.

Lemma slice0_append_short (a b : string) (n : nat) :
  (n <= String.length a)%nat -> slice0 (a ++ b) n = slice0 a n.
Proof.
  unfold slice0. revert n. induction a as [|c a IH]; intros n Hn.
  - cbn in Hn. replace n with 0%nat by lia. destruct b; reflexivity.
  - destruct n as [|n]; cbn in *; [reflexivity|]. rewrite IH by lia. reflexivity.
Qed.

Lemma slice0_replicate (c : ascii) (m n : nat) :
  slice0 (replicate c m) n = replicate c (Nat.min m n).
Proof.
  unfold slice0. revert n. induction m as [|m IH]; intros n.
  - destruct n; reflexivity.
  - destruct n as [|n]; cbn; [reflexivity|]. rewrite IH. reflexivity.
Qed.

Lemma full_width_fits (kvs : list ReportLine) (k v : string) (f : ascii) :
  In (k, Some v, f) (header_line :: kvs) ->
  len_str k + len_str v + 6 <= full_width_of kvs.
Proof.
  intros Hin. unfold full_width_of, min_separation.
  pose proof (fold_max_In key_len_of_non_none_values (header_line :: kvs) 0 _ Hin) as Hk.
  pose proof (fold_max_In (fun y => len_none_is_zero (value y)) (header_line :: kvs) 0 _ Hin)
    as Hv.
  change (len_str k <= max_key_width (header_line :: kvs)) in Hk.
  change (len_str v <= max_value_width (header_line :: kvs)) in Hv. lia.
Qed.

(** The row before the last has a value: the rows are cut to the full width. *)
Lemma reference_width (kvs : list ReportLine) (k v : string) (f : ascii) :
  nth_error (header_line :: kvs) (List.length kvs - 1) = Some (k, Some v, f) ->
  report_lines kvs =
    map (fun kv => slice0 (pair_to_line (full_width_of kvs) kv)
                          (Z.to_nat (full_width_of kvs)))
        (header_line :: kvs).
Proof.
  intros Href. unfold report_lines. cbv zeta.
  assert (Hlen : (2 <= List.length kvs)%nat).
  { destruct kvs as [|kv1 [|kv2 kvs']]; cbn in Href; try discriminate Href. cbn. lia. }
  assert (Hsecond : second_to_last
                      (map String.length (untruncated_lines (header_line :: kvs)))
                    = Z.to_nat (full_width_of kvs)).
  { unfold second_to_last, untruncated_lines. rewrite !length_map.
    fold (full_width_of kvs). cbn [List.length].
    destruct (Nat.ltb_spec (S (List.length kvs)) 2) as [Hlt|_]; [lia|].
    replace (S (List.length kvs) - 2)%nat with (List.length kvs - 1)%nat by lia.
    rewrite map_map.
    rewrite (nth_error_nth _ _ 0%nat
               (x := String.length (pair_to_line (full_width_of kvs) (k, Some v, f)))).
    - apply pair_to_line_value.
      pose proof (full_width_fits kvs k v f (nth_error_In _ _ Href)). lia.
    - rewrite nth_error_map, Href. reflexivity. }
  rewrite Hsecond. unfold untruncated_lines. fold (full_width_of kvs).
  rewrite map_map. reflexivity.
Qed.

(** X13.  [print_results] cannot fail and touches neither the world nor the
    heap: it prints one row for the header and one for each line, in the
    order of the lines, each row being its line cut to some length. *)
Theorem print_results_prints_rows (kvs : list ReportLine) (s : state W) :
  print_results kvs s =
    (Ok tt, mkState (world s) (heap s) (trace s ++ map Printed (report_lines kvs))) /\
  List.length (report_lines kvs) = S (List.length kvs) /\
  exists n, report_lines kvs =
            map (fun kv => slice0 (pair_to_line (full_width_of kvs) kv) n)
                (header_line :: kvs).
Proof.
  split; [|split].
  - unfold print_results. generalize (report_lines kvs) as rows.
    intros rows. revert s. induction rows as [|row rows IH]; intros s.
    + cbn. rewrite app_nil_r. destruct s; reflexivity.
    + cbn [for_each map]. unfold bind, print, emit at 1. rewrite IH.
      cbn [world heap trace]. rewrite <- app_assoc. reflexivity.
  - unfold report_lines, untruncated_lines. rewrite !length_map. reflexivity.
  - eexists. unfold report_lines, untruncated_lines. cbv zeta.
    rewrite map_map. reflexivity.
Qed.

(** X14.  When the row before the last has a value, a line with a value is
    printed whole: its label, then the fill character at least six times,
    then its value, the full width in all. *)
Theorem value_rows_keep_separation
    (kvs : list ReportLine) (k v : string) (f : ascii)
    (i : nat) (k' v' : string) (f' : ascii) :
  nth_error (header_line :: kvs) (List.length kvs - 1) = Some (k, Some v, f) ->
  nth_error (header_line :: kvs) i = Some (k', Some v', f') ->
  exists gap,
    nth_error (report_lines kvs) i = Some (k' ++ replicate f' gap ++ v')%string /\
    (6 <= gap)%nat /\
    Z.of_nat (String.length k' + gap + String.length v') = full_width_of kvs.
Proof.
  intros Href Hi.
  pose proof (full_width_fits kvs k' v' f' (nth_error_In _ _ Hi)) as Hfit.
  unfold len_str in Hfit.
  exists (Z.to_nat (full_width_of kvs - len_str k' - len_str v')).
  unfold len_str. split; [|split; lia].
  rewrite (reference_width kvs k v f Href), nth_error_map, Hi. cbn [option_map].
  f_equal. apply slice0_all.
  rewrite !length_append, length_replicate. lia.
Qed.

(** X15.  When the row before the last has a value, a line without a value
    is centred in the full width when its label fits: the fill character
    on both sides, as often on the right as on the left or once less.  A
    label that is longer than the full width is cut to it. *)
Theorem no_value_rows_are_centred
    (kvs : list ReportLine) (k v : string) (f : ascii)
    (i : nat) (k' : string) (f' : ascii) :
  nth_error (header_line :: kvs) (List.length kvs - 1) = Some (k, Some v, f) ->
  nth_error (header_line :: kvs) i = Some (k', None, f') ->
  let width := Z.to_nat (full_width_of kvs) in
  ((String.length k' <= width)%nat ->
   exists left right,
     nth_error (report_lines kvs) i
       = Some (replicate f' left ++ k' ++ replicate f' right)%string /\
     (left + String.length k' + right = width)%nat /\
     (right <= left <= S right)%nat) /\
  ((width < String.length k')%nat ->
   nth_error (report_lines kvs) i = Some (slice0 k' width)).
Proof.
  intros Href Hi width.
  assert (Hrow : nth_error (report_lines kvs) i =
                 Some (slice0 (pair_to_line (full_width_of kvs) (k', None, f')) width)).
  { rewrite (reference_width kvs k v f Href), nth_error_map, Hi. reflexivity. }
  assert (Hpos : 6 <= full_width_of kvs).
  { pose proof (full_width_fits kvs k v f (nth_error_In _ _ Href)).
    unfold len_str in *. lia. }
  unfold pair_to_line in Hrow. cbn [value label fill fst snd] in Hrow.
  rewrite (ceil_truediv _ 2) in Hrow. unfold times, len_str in Hrow.
  set (pad := Z.to_nat (ceil_div (full_width_of kvs - Z.of_nat (String.length k')) 2)) in *.
  split.
  - intros Hfits.
    assert (Hpad : (2 * pad <= S (width - String.length k') /\
                    width - String.length k' <= 2 * pad)%nat).
    { unfold pad, width, ceil_div. Z.to_euclidean_division_equations. lia. }
    exists pad, (width - String.length k' - pad)%nat.
    split; [|split; lia].
    rewrite Hrow. f_equal.
    rewrite slice0_append by (rewrite length_replicate; lia).
    rewrite slice0_append by (rewrite length_replicate; lia).
    rewrite slice0_replicate, length_replicate.
    do 3 f_equal. lia.
  - intros Hlong.
    assert (Hpad : pad = 0%nat).
    { unfold pad, width, ceil_div in *. Z.to_euclidean_division_equations. lia. }
    rewrite Hrow, Hpad. cbn [replicate append].
    rewrite slice0_append_short by lia. reflexivity.
Qed.

End LayoutFacts.

(** ** The dry run of [main] *)

Section MainFacts.
Context {W : Type} `{Host W}.
Import Py.

Lemma output_lines_sentinels (args : Args) :
  output_lines args sentinels sentinels = Ok (dry_run_lines args).
Proof. reflexivity. Qed.

Lemma for_each_print (rows : list string) (s : state W) :
  for_each rows (fun line _ => print line) tt s =
    (Ok tt, mkState (world s) (heap s) (trace s ++ map Printed rows)).
Proof.
  revert s. induction rows as [|row rows IH]; intros s.
  - cbn. rewrite app_nil_r. destruct s; reflexivity.
  - cbn [for_each map]. unfold bind, print, emit at 1. rewrite IH.
    cbn [world heap trace]. rewrite <- app_assoc. reflexivity.
Qed.

(** X16.  A dry run of [main]: with the setup skipped ([--cached]), fewer
    than one run asked for and no cache file to remove, [main] returns,
    leaves the world as it is, calls no trial and no cleanup, and prints
    the report of two histories of ten durations of one second. *)
Theorem main_dry_run (args : Args) (s : state W) :
  args_cached args = true ->
  args_runs args < 1 ->
  path_exists (path_from ["target"; "partial_parse.pickle"]) (world s) = false ->
  fst (main args s) = Ok tt /\
  world (snd (main args s)) = world s /\
  trace (snd (main args s)) =
    trace s ++
    [ Printed ""; Printed ":::: Benchmark.py ::::";
      Logged "running dev branch setup"; Invoked Setup;
      RunsSet "dev" sentinels; RunsSet "dev" sentinels;
      Logged "running base branch setup"; Invoked Setup;
      RunsSet "base" sentinels; RunsSet "base" sentinels;
      Printed "" ] ++
    map Printed (report_lines (dry_run_lines args)) ++
    [ Printed ("raw dev_runs:  " ++ list_str sentinels);
      Printed ("raw base_runs: " ++ list_str sentinels);
      Printed "" ].
Proof.
  intros Hcached Hruns Hpath.
  assert (Hlookup : forall (hs : list (list Q)) (a b c d e f : list Q),
            (hs ++ [a; b; c; d; e; f]) !! (List.length hs + 3)%nat = Some d /\
            (hs ++ [a; b; c; d; e; f]) !! (List.length hs + 5)%nat = Some f).
  { intros hs a b c d e f. split.
    - rewrite lookup_app_r by lia.
      replace (List.length hs + 3 - List.length hs)%nat with 3%nat by lia. reflexivity.
    - rewrite lookup_app_r by lia.
      replace (List.length hs + 5 - List.length hs)%nat with 5%nat by lia. reflexivity. }
  assert (Hmain : exists hp,
            main args s =
              (Ok tt,
               mkState (world s) hp
                 (trace s ++
                  [ Printed ""; Printed ":::: Benchmark.py ::::";
                    Logged "running dev branch setup"; Invoked Setup;
                    RunsSet "dev" sentinels; RunsSet "dev" sentinels;
                    Logged "running base branch setup"; Invoked Setup;
                    RunsSet "base" sentinels; RunsSet "base" sentinels;
                    Printed "" ] ++
                  map Printed (report_lines (dry_run_lines args)) ++
                  [ Printed ("raw dev_runs:  " ++ list_str sentinels);
                    Printed ("raw base_runs: " ++ list_str sentinels);
                    Printed "" ]))).
  { eexists.
    unfold main. cbv zeta. rewrite Hcached. cbn [negb].
    unfold bind at 1. unfold print at 1, emit at 1. cbn [world heap trace].
    unfold bind at 1. unfold print at 1, emit at 1. cbn [world heap trace].
    unfold bind at 1. unfold Run_init at 1, bind at 1, alloc at 1, ret at 1.
    cbn [world heap trace].
    unfold bind at 1. unfold Run_init at 1, bind at 1, alloc at 1, ret at 1.
    cbn [world heap trace].
    unfold bind at 1. unfold ret at 1.
    unfold bind at 1. rewrite execute_run_dry by exact Hruns. cbv zeta.
    cbn [setup_thunk world heap trace name]. unfold remove_if_exists at 1. rewrite Hpath.
    unfold bind at 1. rewrite execute_run_dry by exact Hruns. cbv zeta.
    cbn [setup_thunk world heap trace name]. unfold remove_if_exists at 1. rewrite Hpath.
    unfold bind at 1. unfold print at 1, emit at 1. cbn [world heap trace].
    cbn [runs with_runs].
    rewrite !length_app. cbn [List.length].
    rewrite <- !app_assoc. cbn [app].
    replace (S (List.length (heap s) + 1 + 1)) with (List.length (heap s) + 3)%nat by lia.
    replace (S (List.length (heap s) + 1 + 1 + 2)) with (List.length (heap s) + 5)%nat by lia.
    destruct (Hlookup (heap s) [] [] (repeat 1%Q 10) (repeat 1%Q 10)
                (repeat 1%Q 10) (repeat 1%Q 10)) as [Hdev Hbase].
    unfold bind at 1.
    rewrite (gather_output_eq args _ _ _ sentinels sentinels) by assumption.
    change (sorted sentinels) with sentinels.
    rewrite output_lines_sentinels.
    unfold bind at 1. unfold print_results. rewrite for_each_print.
    cbn [world heap trace].
    unfold bind at 1. unfold load at 1. cbn [heap].
    rewrite list_lookup_alter_ne by lia. rewrite list_lookup_alter_eq, Hdev.
    cbn [fmap option_fmap option_map default from_option].
    change (sorted (repeat 1%Q 10)) with sentinels.
    unfold bind at 1. unfold print at 1, emit at 1. cbn [world heap trace].
    unfold bind at 1. unfold load at 1. cbn [heap].
    rewrite list_lookup_alter_eq. rewrite list_lookup_alter_ne by lia. rewrite Hbase.
    cbn [fmap option_fmap option_map default from_option].
    change (sorted (repeat 1%Q 10)) with sentinels.
    unfold bind at 1. unfold print at 1, emit at 1. cbn [world heap trace].
    unfold print, emit. cbn [world heap trace].
    rewrite <- !app_assoc. cbn [app]. reflexivity. }
  destruct Hmain as [hp ->]. cbn [fst snd world trace]. repeat split.
Qed.

End MainFacts.

(** ** Files and paths *)

Section FileFacts.
Context {W : Type} `{Host W}.

(** X17.  On a host where removing a file that exists succeeds and leaves
    no file there, [remove_if_exists] never fails and leaves no file at the
    path; where there was none it leaves the world as it is, so that
    calling it twice is calling it once. *)
Theorem remove_if_exists_never_fails (path : string) :
  (forall w, path_exists path w = true ->
             exists w', os_remove path w = (Ok tt, w') /\ path_exists path w' = false) ->
  forall w,
    exists w',
      remove_if_exists path w = (Ok tt, w') /\
      path_exists path w' = false /\
      (path_exists path w = false -> w' = w) /\
      remove_if_exists path w' = (Ok tt, w').
Proof.
  intros Hremove w. unfold remove_if_exists.
  destruct (path_exists path w) eqn:E.
  - destruct (Hremove w E) as (w' & -> & Hgone).
    exists w'. rewrite Hgone. repeat split. discriminate.
  - exists w. rewrite E. repeat split.
Qed.

(** X18.  On a host where making a directory at a free path succeeds and
    removing a tree that exists succeeds and frees its path,
    [create_if_doesnt_exist] and [remove_and_recreate_dir] never fail;
    the first leaves a world with the path as it is, and after either the
    path exists. *)
Theorem directory_helpers_never_fail (path : string) :
  (forall w, path_exists path w = false ->
             exists w', os_mkdir path w = (Ok tt, w') /\ path_exists path w' = true) ->
  (forall w, path_exists path w = true ->
             exists w', rmtree path w = (Ok tt, w') /\ path_exists path w' = false) ->
  forall w,
    (exists w', create_if_doesnt_exist path w = (Ok tt, w') /\
                path_exists path w' = true /\
                (path_exists path w = true -> w' = w)) /\
    (exists w', remove_and_recreate_dir path w = (Ok tt, w') /\
                path_exists path w' = true).
Proof.
  intros Hmkdir Hrmtree w. unfold create_if_doesnt_exist, remove_and_recreate_dir.
  destruct (path_exists path w) eqn:E; cbn [negb].
  - split.
    + exists w. repeat split. exact E.
    + destruct (Hrmtree w E) as (w1 & -> & Hfree).
      destruct (Hmkdir w1 Hfree) as (w2 & -> & Hthere).
      exists w2. split; [reflexivity | exact Hthere].
  - destruct (Hmkdir w E) as (w1 & Hmk & Hthere). rewrite Hmk.
    split; exists w1; repeat split; try exact Hthere. discriminate.
Qed.

(** When the tree cannot be removed, no directory is made. *)
Lemma remove_and_recreate_dir_stops (path : string) (w w' : W) (e : exn) :
  path_exists path w = true ->
  rmtree path w = (Raise e, w') ->
  remove_and_recreate_dir path w = (Raise e, w').
Proof.
  intros Hthere Hfail. unfold remove_and_recreate_dir. rewrite Hthere, Hfail. reflexivity.
Qed.

End FileFacts.

Section PathFacts.

Lemma string_append_assoc (a b c : string) : ((a ++ b) ++ c = a ++ (b ++ c))%string.
Proof. induction a as [|x a IH]; cbn; [reflexivity | rewrite IH; reflexivity]. Qed.

Lemma concat_snoc (sep : string) (l : list string) (d : string) :
  l <> [] ->
  String.concat sep (l ++ [d]) = (String.concat sep l ++ sep ++ d)%string.
Proof.
  induction l as [|x l IH]; [congruence|]. intros _.
  destruct l as [|y l].
  - cbn. reflexivity.
  - change (String.concat sep ((x :: y :: l) ++ [d]))
      with (x ++ sep ++ String.concat sep ((y :: l) ++ [d]))%string.
    rewrite IH by discriminate.
    change (String.concat sep (x :: y :: l))
      with (x ++ sep ++ String.concat sep (y :: l))%string.
    rewrite !string_append_assoc. reflexivity.
Qed.

(** X19.  A path made from a list of directories and one more name is the
    path of the directories, a slash and the name: the dev and base paths
    lie under the workspace path. *)
Theorem path_from_snoc (dir_list : list string) (d : string) :
  dir_list <> [] ->
  path_from (dir_list ++ [d]) = (path_from dir_list ++ "/" ++ d)%string.
Proof.
  intros Hne. unfold path_from. rewrite (concat_snoc "/" dir_list d Hne).
  reflexivity.
Qed.

End PathFacts.

(** ** A branch from its construction to the end of its run *)

Section ConstructedRun.
Context {W : Type} `{Host W}.
Import Py.

(** X20.  A branch is constructed with an empty history of its own, a list
    object that no other reference reaches.  Run once, it holds when the
    run returns exactly as many durations as were planned, or the ten
    made-up ones when fewer than one was planned. *)
Theorem constructed_run_history
    (label dir : string) (planned : Z) (checkout : string)
    (on_setup on_trial on_cleanup : action W)
    (estimator : list Q -> Z -> result Z) (s : state W) :
  let construct :=
    Run_init label dir planned checkout on_setup on_trial on_cleanup estimator in
  (exists b, construct s = (Ok b, mkState (world s) (heap s ++ [[]]) (trace s)) /\
             heap s !! runs b = None /\
             history b (snd (construct s)) = []) /\
  forall b',
    fst ((b <- construct ;; execute_run b) s) = Ok b' ->
    len (history b' (snd ((b <- construct ;; execute_run b) s))) =
      if (planned <? 1)%Z then 10 else planned.
Proof.
  cbv zeta. unfold Run_init at 1 2. unfold bind at 1 2, alloc at 1 2, ret at 1 2.
  cbn [world heap trace fst snd].
  set (b := mkRun label dir planned checkout on_setup on_trial on_cleanup estimator
                  (List.length (heap s))).
  set (s1 := mkState (world s) (heap s ++ [[]]) (trace s)).
  assert (Hempty : history b s1 = []).
  { unfold history, b, s1. cbn [runs heap].
    rewrite (list_lookup_middle (heap s) [] [] (List.length (heap s)) eq_refl).
    reflexivity. }
  split.
  - exists b. split; [reflexivity|]. split; [|exact Hempty].
    apply lookup_ge_None. cbn [runs b]. lia.
  - assert (Hbind : (b0 <- Run_init label dir planned checkout on_setup on_trial
                             on_cleanup estimator ;; execute_run b0) s
                    = execute_run b s1) by reflexivity.
    rewrite Hbind. clear Hbind. intros b' Hb'.
    destruct (Z.ltb_spec planned 1) as [Hlt|Hge].
    + revert Hb'. rewrite (execute_run_dry b s1 Hlt). cbv zeta.
      destruct (setup_thunk b (world s1)) as [[u|e] w]; [|discriminate].
      cbn [fst snd]. intros Hb'. injection Hb' as <-.
      unfold history. cbn [runs with_runs heap].
      change (heap s1) with (heap s ++ [[]]).
      rewrite lookup_app_r by lia.
      replace (S (List.length (heap s ++ [[]])) - List.length (heap s ++ [[]]))%nat
        with 1%nat by lia.
      reflexivity.
    + revert Hb'. rewrite (execute_run_real b s1 Hge). cbv zeta.
      destruct (setup_thunk b (world s1)) as [[u|e] w]; [|discriminate].
      intros Hb'.
      match type of Hb' with
      | fst (for_each _ _ _ ?st) = _ =>
          destruct (for_each_cycles (run_thunk b) (Z.to_nat (run_count b)) b st)
            as (evs & _ & _ & _ & _ & Hok);
          change (history b st) with (history b s1) in Hok
      end.
      destruct (Hok b' Hb') as (_ & _ & _ & Hlen).
      unfold len. cbn [snd]. rewrite Hlen.
      rewrite Hempty. cbn [List.length b run_count]. lia.
Qed.

End ConstructedRun.

Section DisplayFacts.
Import Py.


End DisplayFacts.

(** ** The setup, and how [main] stops *)

Section SetupFacts.
Context {W : Type} `{Host W}.

Ltac host_step :=
  match goal with
  | |- context [match ?a ?w with pair _ _ => _ end] =>
      destruct (a w) as [[[]|?] ?]; cbn [fst snd world heap trace is_ok]
  end.

Ltac setup_stopped :=
  split; [reflexivity|];
  eexists; rewrite <- ?app_assoc; cbn [app];
  split; [reflexivity|];
  split; [eexists; reflexivity | discriminate].

(** X22.  [setup] touches no list object and logs nothing but its five
    messages, in their order: as many of them as it reached when one of the
    commands fails, all five when it returns. *)
Theorem setup_only_logs (workspace_path : string) (dev_run base_run : Run W) (s : state W) :
  heap (snd (setup workspace_path dev_run base_run s)) = heap s /\
  exists evs,
    trace (snd (setup workspace_path dev_run base_run s)) = trace s ++ evs /\
    evs `prefix_of` map Logged setup_messages /\
    (is_ok (fst (setup workspace_path dev_run base_run s)) = true ->
     evs = map Logged setup_messages).
Proof.
  unfold setup, log. cbv zeta. unfold bind, emit, host. cbn [world heap trace].
  do 11 (host_step; [|setup_stopped]).
  split; [reflexivity|].
  eexists. rewrite <- ?app_assoc. cbn [app].
  split; [reflexivity|]. split; [exists []; reflexivity | reflexivity].
Qed.

(** X23.  Without [--cached], when the workspace directory is not there
    and cannot be made, [main] stops with the error of [os.mkdir]: nothing
    is cloned, no branch is run and no report is printed. *)
Theorem main_stops_when_workspace_cannot_be_made
    (args : Args) (s : state W) (e : exn) (w' : W) :
  args_cached args = false ->
  path_exists (path_from ["target"]) (world s) = false ->
  os_mkdir (path_from ["target"]) (world s) = (Raise e, w') ->
  main args s =
    (Raise e,
     mkState w' (heap s ++ [[]; []])
             (trace s ++ [ Printed ""; Printed ":::: Benchmark.py ::::";
                           Logged "setting up directories" ])).
Proof.
  intros Hcached Hfree Hmkdir.
  unfold main. cbv zeta. rewrite Hcached. cbn [negb].
  unfold bind at 1. unfold print at 1, emit at 1. cbn [world heap trace].
  unfold bind at 1. unfold print at 1, emit at 1. cbn [world heap trace].
  unfold bind at 1. unfold Run_init at 1, bind at 1, alloc at 1, ret at 1.
  cbn [world heap trace].
  unfold bind at 1. unfold Run_init at 1, bind at 1, alloc at 1, ret at 1.
  cbn [world heap trace].
  unfold bind at 1. unfold setup at 1. cbv zeta.
  unfold bind at 1. unfold log at 1, emit at 1. cbn [world heap trace].
  unfold bind at 1. unfold host at 1. cbn [world heap trace].
  unfold create_if_doesnt_exist at 1. rewrite Hfree. cbn [negb]. rewrite Hmkdir.
  rewrite <- !app_assoc. reflexivity.
Qed.

(** X24.  With [--cached] and at least one run asked for, when the first
    trial of the dev branch fails, [main] stops with its error: the trial
    is called once, the base branch is not run and no report is printed. *)
Theorem main_stops_when_dev_trial_fails
    (args : Args) (s : state W) (e : exn) (w' : W) :
  args_cached args = true ->
  1 <= args_runs args ->
  path_exists (path_from ["target"; "partial_parse.pickle"]) (world s) = false ->
  subprocess_with_errs
    ("cd " ++ path_from ["target"; "dev"] ++
     " && source env/bin/activate && cd ../.. && dbt parse") (world s) = (Raise e, w') ->
  main args s =
    (Raise e,
     mkState w' (heap s ++ [[]; []])
             (trace s ++ [ Printed ""; Printed ":::: Benchmark.py ::::";
                           Logged "running dev branch setup"; Invoked Setup;
                           Logged ("dev run 1/" ++ Py.str (args_runs args));
                           ClockRead (perf_counter (world s)); Invoked Trial ])).
Proof.
  intros Hcached Hruns Hfree Htrial.
  unfold main. cbv zeta. rewrite Hcached. cbn [negb].
  unfold bind at 1. unfold print at 1, emit at 1. cbn [world heap trace].
  unfold bind at 1. unfold print at 1, emit at 1. cbn [world heap trace].
  unfold bind at 1. unfold Run_init at 1, bind at 1, alloc at 1, ret at 1.
  cbn [world heap trace].
  unfold bind at 1. unfold Run_init at 1, bind at 1, alloc at 1, ret at 1.
  cbn [world heap trace].
  unfold bind at 1. unfold ret at 1.
  unfold bind at 1. rewrite execute_run_real by exact Hruns. cbv zeta.
  cbn [setup_thunk run_thunk run_count world heap trace name].
  unfold remove_if_exists at 1. rewrite Hfree.
  destruct (Z.to_nat (args_runs args)) as [|n] eqn:En; [lia|].
  cbn [repeat for_each]. unfold bind at 1. rewrite trial_cycle_eq. cbv zeta.
  cbn [run_count name world heap trace]. rewrite Htrial.
  unfold history. cbn [runs heap].
  rewrite lookup_app_l by (rewrite length_app; cbn; lia).
  rewrite (list_lookup_middle (heap s) [] [] (List.length (heap s)) eq_refl).
  unfold cycle_head. cbn [name run_count default from_option Py.len List.length].
  rewrite <- !app_assoc. reflexivity.
Qed.

End SetupFacts.

(** ** The further theorems at work *)

Section FurtherInstances.
Import Py.

Lemma tick_clock_forward (w : Toy.world) (u : unit) (w' : Toy.world) :
  Steady.tick w = (Ok u, w') -> (perf_counter w <= perf_counter w')%Q.
Proof.
  unfold Steady.tick. intros E. injection E as _ <-.
  cbn [perf_counter Toy.host fst]. rewrite Qred_correct. lra.
Qed.

(** X4 at work: the setup of a branch with three planned trials fails. *)
Lemma setup_failure_witness :
  execute_run Steady.broken_setup (Toy.fresh [2]%Q) =
    (Raise (HostError "failed"),
     mkState (0%Q, [2]%Q) [[]] [Logged "running dev branch setup"; Invoked Setup]).
Proof.
  exact (setup_failure_aborts_run Steady.broken_setup (Toy.fresh [2]%Q)
           (HostError "failed") (0%Q, [2]%Q) eq_refl).
Defined.

(** X5 at work: the script is empty, so that the first trial fails. *)
Lemma trial_failure_witness :
  fst (execute_run (Toy.base_branch 3) (Toy.fresh [])) = Raise (HostError "dbt parse") /\
  invocations Trial (trace (snd (execute_run (Toy.base_branch 3) (Toy.fresh [])))) = 1%nat /\
  invocations Cleanup (trace (snd (execute_run (Toy.base_branch 3) (Toy.fresh [])))) = 0%nat /\
  heap (snd (execute_run (Toy.base_branch 3) (Toy.fresh []))) = [[]].
Proof.
  pose proof (trial_failure_aborts_run (Toy.base_branch 3) (Toy.fresh []) tt
                (0%Q, []) (0%Q, []) (HostError "dbt parse")
                ltac:(cbn; lia) eq_refl eq_refl) as E.
  rewrite E. repeat split.
Defined.

(** X6 at work: three steady trials. *)
Lemma run_returns_witness :
  is_ok (fst (execute_run (Steady.branch 3) (Toy.fresh []))) = true.
Proof.
  apply (run_returns_when_callbacks_succeed (Steady.branch 3) (Toy.fresh [])).
  - intros w. reflexivity.
  - intros w. reflexivity.
  - intros w. reflexivity.
  - left. reflexivity.
Defined.

(** X7 at work: two steady trials leave two durations of one second. *)
Lemma recorded_durations_witness :
  exists durations,
    history (with_runs (Steady.branch 2) 2)
            (snd (execute_run (Steady.branch 2) (Toy.fresh []))) =
      history (Steady.branch 2) (Toy.fresh []) ++ durations /\
    len durations = 2 /\
    Forall (fun d => (0 <= d)%Q) durations.
Proof.
  apply (recorded_durations_nonnegative (Steady.branch 2) (Toy.fresh [])
           (with_runs (Steady.branch 2) 2)).
  - unfold Steady.branch. cbn. lia.
  - exact tick_clock_forward.
  - reflexivity.
Defined.


(** X10 at work: one trial done of five. *)
Lemma estimators_nonnegative_witness :
  exists linear double,
    base_time_remaining [2]%Q 5 = Ok linear /\ dev_time_remaining [2]%Q 5 = Ok double /\
    0 <= linear /\ 0 <= double.
Proof.
  apply (estimators_nonnegative [2]%Q 5).
  - discriminate.
  - constructor; [discriminate | constructor].
  - unfold len. cbn. lia.
Defined.

(** X11 at work: the histories in completion order and sorted. *)
Lemma statistics_ignore_order_witness :
  output_lines Toy.args [3; 1; 2]%Q [2; 1]%Q = output_lines Toy.args [1; 2; 3]%Q [1; 2]%Q /\
  output_lines Toy.args (sorted [3; 1; 2]%Q) (sorted [2; 1]%Q) =
    output_lines Toy.args [3; 1; 2]%Q [2; 1]%Q.
Proof.
  apply (statistics_ignore_order (W := Toy.world) Toy.args
           [3; 1; 2]%Q [1; 2; 3]%Q [2; 1]%Q [1; 2]%Q).
  - exact (perm_trans (perm_swap 1%Q 3%Q [2%Q]) (perm_skip 1%Q (perm_swap 2%Q 3%Q []))).
  - exact (perm_swap 1%Q 2%Q []).
Defined.

(** X14 at work: the statistics line is printed with six dots. *)
Lemma value_rows_witness :
  exists gap,
    nth_error (report_lines Steady.stat_lines) 1
      = Some ("mean dev" ++ replicate "."%char gap ++ "5.0")%string /\
    (6 <= gap)%nat /\
    Z.of_nat (String.length "mean dev" + gap + String.length "5.0")
      = full_width_of Steady.stat_lines.
Proof.
  apply (value_rows_keep_separation Steady.stat_lines "mean dev" "5.0" "."%char
           1 "mean dev" "5.0" "."%char).
  - reflexivity.
  - reflexivity.
Defined.

(** X15 at work: the separator is a row of blanks as wide as the others. *)
Lemma no_value_rows_witness :
  exists left right,
    nth_error (report_lines Steady.stat_lines) 2
      = Some (replicate " "%char left ++ "" ++ replicate " "%char right)%string /\
    (left + String.length "" + right = Z.to_nat (full_width_of Steady.stat_lines))%nat /\
    (right <= left <= S right)%nat.
Proof.
  destruct (no_value_rows_are_centred Steady.stat_lines "mean dev" "5.0" "."%char
              2 "" " "%char eq_refl eq_refl) as [Hfits _].
  apply Hfits. cbn. lia.
Defined.

(** X16 at work: [benchmark.py --cached --runs 0 feature develop]. *)
Lemma main_dry_run_witness :
  fst (main Steady.dry_args (Toy.start [])) = Ok tt /\
  world (snd (main Steady.dry_args (Toy.start []))) = (0%Q, []) /\
  invocations Trial (trace (snd (main Steady.dry_args (Toy.start [])))) = 0%nat /\
  last (trace (snd (main Steady.dry_args (Toy.start [])))) = Some (Printed "").
Proof.
  destruct (main_dry_run (H := Toy.host) Steady.dry_args (Toy.start [])
              eq_refl ltac:(cbn; lia) eq_refl)
    as (Hret & Hworld & Htrace).
  split; [exact Hret|]. split; [exact Hworld|].
  rewrite Htrace. split; reflexivity.
Defined.

(** X19 at work: the path of the dev branch under the workspace. *)
Lemma path_from_snoc_witness :
  path_from ["target"; "dev"] = "./target/dev".
Proof.
  exact (path_from_snoc ["target"] "dev" ltac:(discriminate)).
Defined.

(** X24 at work: the script is empty, so that the first trial of the dev
    branch fails. *)
Lemma main_dev_trial_failure_witness :
  fst (main Toy.args (Toy.start [])) =
    Raise (HostError
             "cd ./target/dev && source env/bin/activate && cd ../.. && dbt parse") /\
  invocations Trial (trace (snd (main Toy.args (Toy.start [])))) = 1%nat /\
  last (trace (snd (main Toy.args (Toy.start [])))) = Some (Invoked Trial).
Proof.
  pose proof (main_stops_when_dev_trial_fails (H := Toy.host) Toy.args (Toy.start [])
                (HostError
                   "cd ./target/dev && source env/bin/activate && cd ../.. && dbt parse")
                (0%Q, []) eq_refl ltac:(cbn; lia) eq_refl eq_refl) as E.
  rewrite E. repeat split.
Defined.

End FurtherInstances.

Section FilesInstances.
#[local] Existing Instance Files.host.

Lemma files_present_without (path : string) (w : Files.world) :
  Files.present path (Files.without path w) = false.
Proof.
  unfold Files.present, Files.without. induction w as [|p w IH]; [reflexivity|].
  cbn [List.filter]. destruct (String.eqb path p) eqn:E; cbn [negb existsb].
  - exact IH.
  - rewrite E, IH. reflexivity.
Qed.

Lemma files_remove_frees (path : string) (w : Files.world) :
  path_exists path w = true ->
  exists w', os_remove path w = (Ok tt, w') /\ path_exists path w' = false.
Proof.
  cbn [path_exists os_remove Files.host]. unfold Files.remove. intros ->.
  eexists. split; [reflexivity | apply files_present_without].
Qed.

Lemma files_rmtree_frees (path : string) (w : Files.world) :
  path_exists path w = true ->
  exists w', rmtree path w = (Ok tt, w') /\ path_exists path w' = false.
Proof. exact (files_remove_frees path w). Qed.

Lemma files_mkdir_makes (path : string) (w : Files.world) :
  path_exists path w = false ->
  exists w', os_mkdir path w = (Ok tt, w') /\ path_exists path w' = true.
Proof.
  cbn [path_exists os_mkdir Files.host]. unfold Files.mkdir. intros ->.
  eexists. split; [reflexivity|].
  unfold Files.present. cbn [existsb]. rewrite String.eqb_refl. reflexivity.
Qed.

(** X17 at work: the cache file of a parse is removed, and removing it
    again does nothing. *)
Lemma remove_if_exists_witness :
  exists w',
    remove_if_exists "./target/partial_parse.pickle" Files.parsed = (Ok tt, w') /\
    path_exists "./target/partial_parse.pickle" w' = false /\
    (path_exists "./target/partial_parse.pickle" Files.parsed = false -> w' = Files.parsed) /\
    remove_if_exists "./target/partial_parse.pickle" w' = (Ok tt, w').
Proof.
  apply (remove_if_exists_never_fails "./target/partial_parse.pickle"
           (files_remove_frees "./target/partial_parse.pickle")).
Defined.

(** X18 at work: the directory of the dev branch is made where there is
    none, and the target directory is made anew. *)
Lemma directory_helpers_witness :
  (exists w', create_if_doesnt_exist "./target/dev" Files.parsed = (Ok tt, w') /\
              path_exists "./target/dev" w' = true) /\
  (exists w', remove_and_recreate_dir "./target" Files.parsed = (Ok tt, w') /\
              path_exists "./target" w' = true).
Proof.
  destruct (directory_helpers_never_fail "./target/dev"
              (files_mkdir_makes "./target/dev") (files_rmtree_frees "./target/dev")
              Files.parsed) as [(w1 & Hcreate & Hthere & _) _].
  destruct (directory_helpers_never_fail "./target"
              (files_mkdir_makes "./target") (files_rmtree_frees "./target")
              Files.parsed) as [_ Hrecreate].
  split; [exists w1; split; assumption | exact Hrecreate].
Defined.

End FilesInstances.

Section ReadOnlyInstances.
#[local] Existing Instance Files.read_only.

(** X23 at work: no workspace directory, and none can be made. *)
Lemma main_workspace_failure_witness :
  main (mkArgs false 3 "feature" "develop") (mkState ["./logs"] [] []) =
    (Raise (HostError "PermissionError"),
     mkState ["./logs"] [[]; []]
             [ Printed ""; Printed ":::: Benchmark.py ::::";
               Logged "setting up directories" ]).
Proof.
  exact (main_stops_when_workspace_cannot_be_made
           (mkArgs false 3 "feature" "develop") (mkState ["./logs"] [] [])
           (HostError "PermissionError") ["./logs"] eq_refl eq_refl eq_refl).
Defined.

End ReadOnlyInstances.
